(** * gas-agent: agents, providers and conversation state

    A shallow embedding of [gas/Code.gs] (the Google Apps Script edition of
    the library): the six provider classes, the agent object built by
    [GASAgent.createAgent] and the registry itself, followed by the
    properties of the specification that were checked against them.

    Conventions of the embedding
    - JavaScript values that reach the code untyped (the argument of
      [query], the parsed upstream response, the agent name) are values of
      the type [js]; fields that [types.ts] declares with a type are typed.
    - A method is a function in the monad [M S]: it takes the mutable state
      [S] it can reach and yields an [outcome] ([Return] or [Throw]) with
      the state it left behind.  A thrown value is an [Error] object, which
      is what the runtime and every [throw] of the repository produce; it
      is represented by the text of its [message], the one thing a [catch]
      of this code reads.
    - Objects that are shared by reference (message objects, arrays) live
      in an object store, [list obj], and are named by their index. *)

From Stdlib Require Import ZArith QArith.
From stdpp Require Import base option list strings gmap.

Local Open Scope Z_scope.

(** ** JavaScript values *)

(** A JavaScript number: a rational, or [NaN]. *)
Inductive number : Type :=
| NaN
| Num (q : Q).

#[warnings="-register-all"]
Inductive js : Type :=
| JUndefined
| JNull
| JBool (b : bool)
| JNum (n : number)
| JStr (s : string)
| JArr (items : list js)
| JObj (fields : list (string * js)).

Definition nonEmpty (s : string) : bool := negb (String.eqb s "").

(** Truthiness of a number: [0] and [NaN] are falsy. *)
Definition numberTruthy (n : number) : bool :=
  match n with
  | NaN => false
  | Num q => negb (Qnum q =? 0)
  end.

(** [ToBoolean]. *)
Definition truthy (v : js) : bool :=
  match v with
  | JUndefined | JNull => false
  | JBool b => b
  | JNum n => numberTruthy n
  | JStr s => nonEmpty s
  | JArr _ | JObj _ => true
  end.

(** [typeof v === 'string']. *)
Definition isString (v : js) : bool :=
  match v with JStr _ => true | _ => false end.

Definition nullish (v : js) : bool :=
  match v with JUndefined | JNull => true | _ => false end.

(** [a || b] on values. *)
Definition jsOr (a b : js) : js := if truthy a then a else b.

(** [o || d] where [o] is an optional string field. *)
Definition strOr (o : option string) (d : string) : string :=
  match o with
  | Some s => if nonEmpty s then s else d
  | None => d
  end.

(** [o || d] where [o] is an optional number field. *)
Definition numOr (o : option number) (d : number) : number :=
  match o with
  | Some n => if numberTruthy n then n else d
  | None => d
  end.

(** [o || d] where [o] is an optional array field: an array is truthy
    even when it is empty. *)
Definition arrOr {A : Type} (o : option (list A)) (d : list A) : list A :=
  match o with
  | Some l => l
  | None => d
  end.

Fixpoint assoc {A : Type} (key : string) (l : list (string * A)) : option A :=
  match l with
  | [] => None
  | (k, v) :: rest => if String.eqb k key then Some v else assoc key rest
  end.

(** ** Outcomes and the state-and-exception monad *)

Inductive outcome (A : Type) : Type :=
| Return (a : A)
| Throw (message : string).
Arguments Return {A} a.
Arguments Throw {A} message.

Definition M (S A : Type) : Type := S -> outcome A * S.

Definition ret {S A : Type} (a : A) : M S A := fun s => (Return a, s).

Definition throw {S A : Type} (message : string) : M S A :=
  fun s => (Throw message, s).

Definition bind {S A B : Type} (m : M S A) (k : A -> M S B) : M S B :=
  fun s =>
    match m s with
    | (Return a, s') => k a s'
    | (Throw e, s') => (Throw e, s')
    end.

(** [try { body } catch (error) { handler(error.message) }]: the state
    changes made before the throw stay. *)
Definition tryCatch {S A : Type} (body : M S A) (handler : string -> M S A)
  : M S A :=
  fun s =>
    match body s with
    | (Return a, s') => (Return a, s')
    | (Throw e, s') => handler e s'
    end.

Definition gets {S A : Type} (f : S -> A) : M S A := fun s => (Return (f s), s).

Definition modify {S : Type} (f : S -> S) : M S unit :=
  fun s => (Return tt, f s).

(** An effect-free computation that may throw. *)
Definition lift {S A : Type} (o : outcome A) : M S A := fun s => (o, s).

Declare Scope js_scope.
Delimit Scope js_scope with js.
Notation "'let!' x ':=' m 'in' k" := (bind m (fun x => k))
  (at level 10, x name, m at level 100, k at level 200) : js_scope.
Local Open Scope js_scope.

(** ** Property access on untyped values *)

(** The message of the [TypeError] raised when a property of [undefined]
    or [null] is read (wording of V8). *)
Definition cannotRead (v : js) (key : string) : string :=
  "Cannot read properties of "
  +:+ (match v with JNull => "null" | _ => "undefined" end)
  +:+ " (reading '" +:+ key +:+ "')".

(** [v.key] for the keys the providers read ([error], [message],
    [choices], [content], [candidates], [parts], [text]); none of them is a
    member of a built-in prototype, so only objects can hold them. *)
Definition getProp (v : js) (key : string) : outcome js :=
  match v with
  | JUndefined | JNull => Throw (cannotRead v key)
  | JObj fields => Return (default JUndefined (assoc key fields))
  | _ => Return JUndefined
  end.

(** [v[0]]. *)
Definition getFirst (v : js) : outcome js :=
  match v with
  | JUndefined | JNull => Throw (cannotRead v "0")
  | JArr items => Return (default JUndefined (head items))
  | JStr (String c _) => Return (JStr (String c ""))
  | JObj fields => Return (default JUndefined (assoc "0" fields))
  | _ => Return JUndefined
  end.

Definition obind {A B : Type} (o : outcome A) (k : A -> outcome B) : outcome B :=
  match o with
  | Return a => k a
  | Throw e => Throw e
  end.

(** [result.choices[0]?.message?.content]: an optional link ends the whole
    chain with [undefined] when its left side is [undefined] or [null]. *)
Definition choicesContent (result : js) : outcome js :=
  obind (getProp result "choices") (fun choices =>
  obind (getFirst choices) (fun first =>
  if nullish first then Return JUndefined else
  obind (getProp first "message") (fun message =>
  if nullish message then Return JUndefined else
  getProp message "content"))).

(** [result.candidates[0]?.content?.parts[0]?.text]. *)
Definition candidatesText (result : js) : outcome js :=
  obind (getProp result "candidates") (fun candidates =>
  obind (getFirst candidates) (fun first =>
  if nullish first then Return JUndefined else
  obind (getProp first "content") (fun content =>
  if nullish content then Return JUndefined else
  obind (getProp content "parts") (fun parts =>
  obind (getFirst parts) (fun part =>
  if nullish part then Return JUndefined else
  getProp part "text"))))).

(** ** Data model ([types.ts]) *)

Record Message : Type := mkMessage {
  role : string;
  content : js
}.

Record ProviderConfig : Type := mkConfig {
  apiKey : option string;
  model : option string;
  cfgSystemPrompt : option string;
  temperature : option number;
  max_tokens : option number;
  messages : option (list Message);
  baseURL : option string;
  referer : option string;
  title : option string
}.

(** [{ ...config, messages }]. *)
Definition withMessages (config : ProviderConfig) (ms : list Message)
  : ProviderConfig :=
  {| apiKey := apiKey config; model := model config;
     cfgSystemPrompt := cfgSystemPrompt config;
     temperature := temperature config; max_tokens := max_tokens config;
     messages := Some ms;
     baseURL := baseURL config; referer := referer config;
     title := title config |}.

Record ProviderResponse : Type := mkResponse {
  status : Z;
  response : option js;
  error : option string
}.

Definition success (text : js) : ProviderResponse :=
  {| status := 200; response := Some text; error := None |}.

Definition failure (code : Z) (message : string) : ProviderResponse :=
  {| status := code; response := None; error := Some message |}.

(** ** The request a provider hands to [UrlFetchApp.fetch] *)

(** The object given to [JSON.stringify]. *)
Inductive Payload : Type :=
| ChatPayload (pModel : string) (pMessages : list Message)
    (pTemperature pMaxTokens : number)
| GeneratePayload (pText : string) (pTemperature pMaxOutputTokens : number).

Record Request : Type := mkRequest {
  url : string;
  method : string;
  headers : list (string * string);
  payload : Payload
}.

Definition payloadMessages (p : Payload) : option (list Message) :=
  match p with
  | ChatPayload _ ms _ _ => Some ms
  | GeneratePayload _ _ _ => None
  end.

Definition payloadTemperature (p : Payload) : number :=
  match p with
  | ChatPayload _ _ t _ => t
  | GeneratePayload _ t _ => t
  end.

Definition payloadMaxTokens (p : Payload) : number :=
  match p with
  | ChatPayload _ _ _ n => n
  | GeneratePayload _ _ n => n
  end.

(** ** The runtime services of Google Apps Script

    [W] is the state of everything outside the library: the script
    properties, the network, the upstream services. *)

Record Runtime (W : Type) : Type := mkRuntime {
  (** [PropertiesService.getScriptProperties().getProperty(name)];
      [None] is [null].  The lookup is taken to return: a properties
      service that throws, which a provider would let through since the
      lookup stands before its [try], is not part of the model. *)
  getProperty : string -> W -> option string;
  (** [UrlFetchApp.fetch(url, options).getContentText()]: the body text,
      or the exception of the transport. *)
  fetch : Request -> W -> outcome string * W;
  (** [JSON.parse]. *)
  JSON_parse : string -> outcome js;
  (** The conversion to a string done by a template literal. *)
  ToString : js -> string
}.
Arguments getProperty {W} _ _ _.
Arguments fetch {W} _ _ _.
Arguments JSON_parse {W} _ _.
Arguments ToString {W} _ _.

(** What a provider can reach: the outside world and, as a record of
    what it did, the requests it has sent so far. *)
Record Net (W : Type) : Type := mkNet {
  outside : W;
  sent : list Request
}.
Arguments mkNet {W} _ _.
Arguments outside {W} _.
Arguments sent {W} _.

Section Providers.
Context {W : Type} (rt : Runtime W).

(** [config.apiKey || PropertiesService...getProperty(name)]. *)
Definition apiKeyOr (configured : option string) (name : string)
  : M (Net W) (option string) :=
  fun n =>
    match configured with
    | Some k => if nonEmpty k then (Return (Some k), n)
                else (Return (getProperty rt name (outside n)), n)
    | None => (Return (getProperty rt name (outside n)), n)
    end.

(** [!apiKey]. *)
Definition keyOf (k : option string) : option string :=
  match k with
  | Some s => if nonEmpty s then Some s else None
  | None => None
  end.

Definition UrlFetchApp_fetch (req : Request) : M (Net W) string :=
  fun n =>
    let '(r, w) := fetch rt req (outside n) in
    (r, {| outside := w; sent := sent n ++ [req] |}).

Definition userMessage (input : string) : Message :=
  {| role := "user"; content := JStr input |}.

Definition bearer (key : string) : list (string * string) :=
  [("Authorization", "Bearer " +:+ key);
   ("Content-Type", "application/json")].

Definition seven_tenths : number := Num (7 # 10).
Definition hundred : number := Num (100 # 1).

(** The [try] block of the chat-completion providers; they differ in
    the two strings only. *)
Definition chatExchange (options : Request) (apiError fallback : string)
  : M (Net W) ProviderResponse :=
  let! text := UrlFetchApp_fetch options in
  let! result := lift (JSON_parse rt text) in
  let! err := lift (getProp result "error") in
  if truthy err then
    let! message := lift (getProp err "message") in
    ret (failure 500 (apiError +:+ ToString rt message))
  else
    let! text := lift (choicesContent result) in
    ret (success (jsOr text (JStr fallback))).

(** The [try] block of [GoogleAIProvider]. *)
Definition generateContentExchange (options : Request)
  : M (Net W) ProviderResponse :=
  let! text := UrlFetchApp_fetch options in
  let! result := lift (JSON_parse rt text) in
  let! err := lift (getProp result "error") in
  if truthy err then
    let! message := lift (getProp err "message") in
    ret (failure 500 ("Google AI API error: " +:+ ToString rt message))
  else
    let! text := lift (candidatesText result) in
    ret (success (jsOr text (JStr "No response from Google AI."))).

(** *** OpenAIProvider *)

(** [url], [payload] and [options] of [OpenAIProvider.generateResponse]. *)
Definition OpenAIProvider_options (input : string) (config : ProviderConfig)
    (apiKey : string) : Request :=
  {| url := "https://api.openai.com/v1/chat/completions";
     method := "post";
     headers := bearer apiKey;
     payload :=
       ChatPayload (strOr (model config) "gpt-3.5-turbo")
                   [userMessage input]
                   (numOr (temperature config) seven_tenths)
                   (numOr (max_tokens config) hundred) |}.

Definition OpenAIProvider_generateResponse
  (input : string) (config : ProviderConfig) : M (Net W) ProviderResponse :=
  let! apiKey := apiKeyOr (apiKey config) "OPENAI_API_KEY" in
  match keyOf apiKey with
  | None => ret (failure 400 "OpenAI API key is required.")
  | Some key =>
    tryCatch
      (chatExchange (OpenAIProvider_options input config key)
                    "OpenAI API error: " "No response from OpenAI.")
      (fun message => ret (failure 500 ("OpenAIProvider error: " +:+ message)))
  end.

(** *** OpenAILikeProvider *)

Definition OpenAILikeProvider_options (input : string)
    (config : ProviderConfig) (apiKey : string) : Request :=
  {| url := default "undefined" (baseURL config) +:+ "/chat/completions";
     method := "post";
     headers := bearer apiKey;
     payload :=
       ChatPayload (strOr (model config) "gpt-3.5-turbo")
                   (arrOr (messages config) [userMessage input])
                   (numOr (temperature config) seven_tenths)
                   (numOr (max_tokens config) hundred) |}.

Definition OpenAILikeProvider_generateResponse
  (input : string) (config : ProviderConfig) : M (Net W) ProviderResponse :=
  let! apiKey := apiKeyOr (apiKey config) "OPENAI_LIKE_API_KEY" in
  match keyOf apiKey with
  | None => ret (failure 400 "API key is required.")
  | Some key =>
    match keyOf (baseURL config) with
    | None => ret (failure 400 "Base URL is required for OpenAILike provider.")
    | Some _ =>
      tryCatch
        (chatExchange (OpenAILikeProvider_options input config key)
                      "API error: " "No response from API.")
        (fun message =>
           ret (failure 500 ("OpenAILikeProvider error: " +:+ message)))
    end
  end.

(** *** GoogleAIProvider *)

Definition GoogleAIProvider_options (input : string)
    (config : ProviderConfig) (apiKey : string) : Request :=
  let model := strOr (model config) "gemini-2.0-flash" in
  {| url := "https://generativelanguage.googleapis.com/v1/models/"
            +:+ model +:+ ":generateContent";
     method := "post";
     headers := [("Content-Type", "application/json");
                 ("x-goog-api-key", apiKey)];
     payload :=
       GeneratePayload input
                       (numOr (temperature config) seven_tenths)
                       (numOr (max_tokens config) hundred) |}.

Definition GoogleAIProvider_generateResponse
  (input : string) (config : ProviderConfig) : M (Net W) ProviderResponse :=
  let! apiKey := apiKeyOr (apiKey config) "GOOGLEAI_API_KEY" in
  match keyOf apiKey with
  | None => ret (failure 400 "Google AI API key is required.")
  | Some key =>
    tryCatch
      (generateContentExchange (GoogleAIProvider_options input config key))
      (fun message =>
         ret (failure 500 ("GoogleAIProvider error: " +:+ message)))
  end.

(** *** DeepSeekProvider *)

Definition DeepSeekProvider_options (input : string)
    (config : ProviderConfig) (apiKey : string) : Request :=
  {| url := "https://api.deepseek.com/v1/chat/completions";
     method := "post";
     headers := bearer apiKey;
     payload :=
       ChatPayload (strOr (model config) "deepseek-chat")
                   [userMessage input]
                   (numOr (temperature config) seven_tenths)
                   (numOr (max_tokens config) hundred) |}.

Definition DeepSeekProvider_generateResponse
  (input : string) (config : ProviderConfig) : M (Net W) ProviderResponse :=
  let! apiKey := apiKeyOr (apiKey config) "DEEPSEEK_API_KEY" in
  match keyOf apiKey with
  | None => ret (failure 400 "DeepSeek API key is required.")
  | Some key =>
    tryCatch
      (chatExchange (DeepSeekProvider_options input config key)
                    "DeepSeek API error: " "No response from DeepSeek.")
      (fun message =>
         ret (failure 500 ("DeepSeekProvider error: " +:+ message)))
  end.

(** *** OpenRouterProvider *)

Definition OpenRouterProvider_options (input : string)
    (config : ProviderConfig) (apiKey : string) : Request :=
  {| url := "https://openrouter.ai/api/v1/chat/completions";
     method := "post";
     headers :=
       [("Authorization", "Bearer " +:+ apiKey);
        ("HTTP-Referer", strOr (referer config) "https://script.google.com");
        ("X-Title", strOr (title config) "GAS Agent");
        ("Content-Type", "application/json")];
     payload :=
       ChatPayload (strOr (model config) "openai/gpt-3.5-turbo")
                   [userMessage input]
                   (numOr (temperature config) seven_tenths)
                   (numOr (max_tokens config) hundred) |}.

Definition OpenRouterProvider_generateResponse
  (input : string) (config : ProviderConfig) : M (Net W) ProviderResponse :=
  let! apiKey := apiKeyOr (apiKey config) "OPENROUTER_API_KEY" in
  match keyOf apiKey with
  | None => ret (failure 400 "OpenRouter API key is required.")
  | Some key =>
    tryCatch
      (chatExchange (OpenRouterProvider_options input config key)
                    "OpenRouter API error: " "No response from OpenRouter.")
      (fun message =>
         ret (failure 500 ("OpenRouterProvider error: " +:+ message)))
  end.

(** *** GroqProvider *)

Definition GroqProvider_options (input : string)
    (config : ProviderConfig) (apiKey : string) : Request :=
  {| url := "https://api.groq.com/openai/v1/chat/completions";
     method := "post";
     headers := bearer apiKey;
     payload :=
       ChatPayload (strOr (model config) "mixtral-8x7b-32768")
                   [userMessage input]
                   (numOr (temperature config) seven_tenths)
                   (numOr (max_tokens config) hundred) |}.

Definition GroqProvider_generateResponse
  (input : string) (config : ProviderConfig) : M (Net W) ProviderResponse :=
  let! apiKey := apiKeyOr (apiKey config) "GROQ_API_KEY" in
  match keyOf apiKey with
  | None => ret (failure 400 "Groq API key is required.")
  | Some key =>
    tryCatch
      (chatExchange (GroqProvider_options input config key)
                    "Groq API error: " "No response from Groq.")
      (fun message =>
         ret (failure 500 ("GroqProvider error: " +:+ message)))
  end.

End Providers.

(** The six provider classes, as the constructor of [GASAgent] registers
    them. *)
Inductive ProviderKind : Type :=
| OpenAI | GoogleAI | DeepSeek | OpenRouter | Groq | OpenAILike.

Definition providers : list (string * ProviderKind) :=
  [("OpenAI", OpenAI); ("GoogleAI", GoogleAI); ("DeepSeek", DeepSeek);
   ("OpenRouter", OpenRouter); ("Groq", Groq); ("OpenAILike", OpenAILike)].

Definition generateResponse {W : Type} (rt : Runtime W) (kind : ProviderKind)
  : string -> ProviderConfig -> M (Net W) ProviderResponse :=
  match kind with
  | OpenAI => OpenAIProvider_generateResponse rt
  | GoogleAI => GoogleAIProvider_generateResponse rt
  | DeepSeek => DeepSeekProvider_generateResponse rt
  | OpenRouter => OpenRouterProvider_generateResponse rt
  | Groq => GroqProvider_generateResponse rt
  | OpenAILike => OpenAILikeProvider_generateResponse rt
  end.

(** ** The object store *)

Abbreviation loc := nat (only parsing).

Inductive obj : Type :=
| OMessage (m : Message)
| OArray (elems : list loc).

(** A new object gets the next free reference. *)
Definition alloc (o : obj) (h : list obj) : loc * list obj :=
  (length h, h ++ [o]).

Definition readMessage (h : list obj) (r : loc) : option Message :=
  match h !! r with
  | Some (OMessage m) => Some m
  | _ => None
  end.

(** The messages an array of references denotes. *)
Definition readMessages (h : list obj) (l : list loc) : list Message :=
  omap (readMessage h) l.

(** ** The agent object

    [messageHistory] and [systemPrompt] are its two mutable fields;
    [config] and [providerName] are the variables its methods close
    over. *)

Record Agent : Type := mkAgent {
  messageHistory : loc;
  systemPrompt : string;
  config : ProviderConfig;
  providerName : string
}.

(** What the methods of one agent can reach: the agent, the object store,
    the state [W] its provider works on, and, as a record of what was done,
    the calls of the provider's [generateResponse]. *)
Record Machine (W : Type) : Type := mkMachine {
  self : Agent;
  heap : list obj;
  world : W;
  delegated : list (string * ProviderConfig)
}.
Arguments mkMachine {W} _ _ _ _.
Arguments self {W} _.
Arguments heap {W} _.
Arguments world {W} _.
Arguments delegated {W} _.

Definition setHistoryRef (r : loc) (a : Agent) : Agent :=
  {| messageHistory := r; systemPrompt := systemPrompt a;
     config := config a; providerName := providerName a |}.

Definition setPrompt (p : string) (a : Agent) : Agent :=
  {| messageHistory := messageHistory a; systemPrompt := p;
     config := config a; providerName := providerName a |}.

Definition withSelf {W : Type} (a : Agent) (st : Machine W) : Machine W :=
  {| self := a; heap := heap st; world := world st;
     delegated := delegated st |}.

Definition withHeap {W : Type} (h : list obj) (st : Machine W) : Machine W :=
  {| self := self st; heap := h; world := world st;
     delegated := delegated st |}.

(** The conversation the agent holds: the messages its history array
    refers to. *)
Definition history {W : Type} (st : Machine W) : list Message :=
  match heap st !! messageHistory (self st) with
  | Some (OArray elems) => readMessages (heap st) elems
  | _ => []
  end.

(** [keepHistory = true]: the default applies when the argument is
    [undefined]; the test of the code is then its truthiness. *)
Definition keeps (keepHistory : js) : bool :=
  match keepHistory with
  | JUndefined => true
  | v => truthy v
  end.

Definition stringOf (v : js) : string :=
  match v with JStr s => s | _ => "" end.

Definition responseText (r : ProviderResponse) : js :=
  default JUndefined (response r).

Section AgentMethods.
Context {W : Type}.

(** [this.providers[providerName].generateResponse]: the method the
    agent is bound to, or the [TypeError] of a lookup that finds no such
    method. *)
Variable boundProvider
  : outcome (string -> ProviderConfig -> M W ProviderResponse).

Definition setSystemPrompt (prompt : js) : M (Machine W) unit :=
  if negb (isString prompt) then throw "System prompt must be a string."
  else modify (fun st => withSelf (setPrompt (stringOf prompt) (self st)) st).

Definition clearHistory : M (Machine W) unit :=
  fun st =>
    let '(r, h) := alloc (OArray []) (heap st) in
    (Return tt, withHeap h (withSelf (setHistoryRef r (self st)) st)).

(** The elements of [agent.messageHistory], as a spread or a method of
    [Array.prototype] finds them. *)
Definition historyElems (what : string) : M (Machine W) (list loc) :=
  fun st =>
    match heap st !! messageHistory (self st) with
    | Some (OArray elems) => (Return elems, st)
    | _ => (Throw ("agent.messageHistory" +:+ what), st)
    end.

(** [[...agent.messageHistory]]: a new array with the same elements. *)
Definition getHistory : M (Machine W) loc :=
  let! elems := historyElems " is not iterable" in
  fun st =>
    let '(r, h) := alloc (OArray elems) (heap st) in
    (Return r, withHeap h st).

Definition delegate (input : string) (chatConfig : ProviderConfig)
  : M (Machine W) ProviderResponse :=
  match boundProvider with
  | Throw e => throw e
  | Return generate =>
    fun st =>
      let '(r, w) := generate input chatConfig (world st) in
      (r, {| self := self st; heap := heap st; world := w;
             delegated := delegated st ++ [(input, chatConfig)] |})
  end.

(** [agent.messageHistory.push(m1, m2)] with two new message objects. *)
Definition pushHistory (m1 m2 : Message) : M (Machine W) unit :=
  fun st =>
    let '(l1, h1) := alloc (OMessage m1) (heap st) in
    let '(l2, h2) := alloc (OMessage m2) h1 in
    match h2 !! messageHistory (self st) with
    | Some (OArray elems) =>
      (Return tt,
       withHeap (<[messageHistory (self st) := OArray (elems ++ [l1; l2])]> h2)
                st)
    | _ => (Throw "agent.messageHistory.push is not a function",
            withHeap h2 st)
    end.

(** The [try] block of [query]. *)
Definition queryBody (input : string) (keepHistory : js)
  : M (Machine W) ProviderResponse :=
  let! prompt := gets (fun st => systemPrompt (self st)) in
  let system :=
    if nonEmpty prompt then [{| role := "system"; content := JStr prompt |}]
    else [] in
  let! elems := historyElems " is not iterable" in
  let! stored := gets (fun st => readMessages (heap st) elems) in
  let messages :=
    system ++ stored ++ [{| role := "user"; content := JStr input |}] in
  let! chatConfig := gets (fun st => withMessages (config (self st)) messages) in
  let! response := delegate input chatConfig in
  if (status response =? 200) && keeps keepHistory then
    let! _ := pushHistory {| role := "user"; content := JStr input |}
                          {| role := "assistant";
                             content := responseText response |} in
    ret response
  else ret response.

Definition query (input : js) (keepHistory : js)
  : M (Machine W) ProviderResponse :=
  if negb (truthy input) || negb (isString input) then
    ret (failure 400 "Input must be a non-empty string.")
  else
    tryCatch
      (queryBody (stringOf input) keepHistory)
      (fun message =>
         ret (failure 500 ("Error during query execution: " +:+ message))).

End AgentMethods.

(** ** The registry *)

(** The members every object literal inherits from [Object.prototype];
    a lookup [o[key]] finds them when [o] has no property [key] of its
    own, and all of them are truthy. *)
Definition objectPrototypeKeys : list string :=
  ["constructor"; "hasOwnProperty"; "isPrototypeOf"; "propertyIsEnumerable";
   "toLocaleString"; "toString"; "valueOf"; "__proto__";
   "__defineGetter__"; "__defineSetter__"; "__lookupGetter__";
   "__lookupSetter__"].

Definition inherited (key : string) : bool :=
  existsb (String.eqb key) objectPrototypeKeys.

(** [this.agents]: the registry only ever tests whether a name is
    there, so the agent it keeps under a name is the agent as it was
    created.  [this.providers] is the constant [providers]. *)
Record GASAgent : Type := mkGASAgent {
  agents : gmap string Agent
}.

(** [new GASAgent()]. *)
Definition newGASAgent : GASAgent := {| agents := ∅ |}.

(** [this.agents[agentName]] is truthy. *)
Definition agentFound (this : GASAgent) (name : string) : bool :=
  bool_decide (is_Some (agents this !! name)) || inherited name.

(** [this.providers[providerName]] is truthy. *)
Definition providerFound (name : string) : bool :=
  bool_decide (is_Some (assoc name providers)) || inherited name.

Definition createAgent (agentName : js) (providerName : string)
    (config : ProviderConfig) : M (GASAgent * list obj) Agent :=
  fun '(this, h) =>
    if negb (truthy agentName) || negb (isString agentName) then
      (Throw "Agent name must be a non-empty string.", (this, h))
    else
      let name := stringOf agentName in
      if agentFound this name then
        (Throw ("Agent '" +:+ name +:+ "' already exists."), (this, h))
      else if negb (providerFound providerName) then
        (Throw ("Provider '" +:+ providerName +:+ "' not registered."),
         (this, h))
      else
        let '(r, h') := alloc (OArray []) h in
        let agent :=
          {| messageHistory := r;
             systemPrompt := strOr (cfgSystemPrompt config) "";
             config := config; providerName := providerName |} in
        (Return agent, ({| agents := <[name := agent]> (agents this) |}, h')).

Definition listAgents (this : GASAgent) : list string :=
  map fst (map_to_list (agents this)).

Definition listProviders : list string := map fst providers.

(** The method [this.providers[providerName].generateResponse] of an
    agent of the registry. *)
Definition bound {W : Type} (rt : Runtime W) (providerName : string)
  : outcome (string -> ProviderConfig -> M (Net W) ProviderResponse) :=
  match assoc providerName providers with
  | Some kind => Return (generateResponse rt kind)
  | None =>
    if inherited providerName then
      Throw "this.providers[providerName].generateResponse is not a function"
    else Throw (cannotRead JUndefined "generateResponse")
  end.

(** The methods of an agent of the registry. *)
Definition agentQuery {W : Type} (rt : Runtime W) (input keepHistory : js)
  : M (Machine (Net W)) ProviderResponse :=
  fun st => query (bound rt (providerName (self st))) input keepHistory st.

(** ** Vocabulary of the properties *)

(** The name of the script property a provider reads its key from. *)
Definition keyName (kind : ProviderKind) : string :=
  match kind with
  | OpenAI => "OPENAI_API_KEY"
  | GoogleAI => "GOOGLEAI_API_KEY"
  | DeepSeek => "DEEPSEEK_API_KEY"
  | OpenRouter => "OPENROUTER_API_KEY"
  | Groq => "GROQ_API_KEY"
  | OpenAILike => "OPENAI_LIKE_API_KEY"
  end.

(** The identifier a provider is registered under. *)
Definition kindName (kind : ProviderKind) : string :=
  match kind with
  | OpenAI => "OpenAI"
  | GoogleAI => "GoogleAI"
  | DeepSeek => "DeepSeek"
  | OpenRouter => "OpenRouter"
  | Groq => "Groq"
  | OpenAILike => "OpenAILike"
  end.

(** The name a provider gives itself in its messages; the provider for
    custom endpoints has none. *)
Definition providerLabel (kind : ProviderKind) : option string :=
  match kind with
  | OpenAI => Some "OpenAI"
  | GoogleAI => Some "Google AI"
  | DeepSeek => Some "DeepSeek"
  | OpenRouter => Some "OpenRouter"
  | Groq => Some "Groq"
  | OpenAILike => None
  end.

Definition keyRequired (kind : ProviderKind) : string :=
  match providerLabel kind with
  | Some name => name +:+ " API key is required."
  | None => "API key is required."
  end.

Definition fallbackText (kind : ProviderKind) : string :=
  "No response from " +:+ default "API" (providerLabel kind) +:+ ".".

Definition apiErrorPrefix (kind : ProviderKind) : string :=
  match providerLabel kind with
  | Some name => name +:+ " API error: "
  | None => "API error: "
  end.

Definition catchPrefix (kind : ProviderKind) : string :=
  kindName kind +:+ "Provider error: ".

(** The request of each provider. *)
Definition options (kind : ProviderKind)
  : string -> ProviderConfig -> string -> Request :=
  match kind with
  | OpenAI => OpenAIProvider_options
  | GoogleAI => GoogleAIProvider_options
  | DeepSeek => DeepSeekProvider_options
  | OpenRouter => OpenRouterProvider_options
  | Groq => GroqProvider_options
  | OpenAILike => OpenAILikeProvider_options
  end.

(** The [try] block of each provider. *)
Definition exchange {W : Type} (rt : Runtime W) (kind : ProviderKind)
    (req : Request) : M (Net W) ProviderResponse :=
  match kind with
  | GoogleAI => generateContentExchange rt req
  | _ => chatExchange rt req (apiErrorPrefix kind) (fallbackText kind)
  end.

(** The key a provider ends up with: the configured one when it is a
    non-empty string, else the script property when that is one. *)
Definition credential {W : Type} (rt : Runtime W) (kind : ProviderKind)
    (config : ProviderConfig) (w : W) : option string :=
  match keyOf (apiKey config) with
  | Some key => Some key
  | None => keyOf (getProperty rt (keyName kind) w)
  end.

(** The custom endpoint is configured, for the one provider that needs
    it. *)
Definition endpointGiven (kind : ProviderKind) (config : ProviderConfig)
  : bool :=
  match kind with
  | OpenAILike => bool_decide (is_Some (keyOf (baseURL config)))
  | _ => true
  end.

(** [field key v]: the member [key] of the object [v], when [v] is an
    object that has it. *)
Definition field (key : string) (v : js) : option js :=
  match v with
  | JObj fields => assoc key fields
  | _ => None
  end.

Definition errorFieldAbsent (result : js) : bool :=
  match result with
  | JObj fields => bool_decide (assoc "error" fields = None)
  | _ => false
  end.

(** The array of choices is there, and [choices[0].message.content] is
    not. *)
Definition contentAbsent (result : js) : bool :=
  match field "choices" result with
  | Some (JArr items) =>
    match items with
    | [] => true
    | first :: _ =>
      match field "message" first with
      | None => true
      | Some message =>
        match field "content" message with
        | None => true
        | Some _ => false
        end
      end
    end
  | _ => false
  end.

(** The array of candidates is there, and
    [candidates[0].content.parts[0].text] is not: the candidate has no
    content, or its content has an array of parts without that text. *)
Definition textAbsentGoogle (result : js) : bool :=
  match field "candidates" result with
  | Some (JArr items) =>
    match items with
    | [] => true
    | first :: _ =>
      match field "content" first with
      | None => true
      | Some content =>
        match field "parts" content with
        | Some (JArr parts) =>
          match parts with
          | [] => true
          | part :: _ =>
            match field "text" part with
            | None => true
            | Some _ => false
            end
          end
        | _ => false
        end
      end
    end
  | _ => false
  end.

Definition textAbsent (kind : ProviderKind) (result : js) : bool :=
  match kind with
  | GoogleAI => textAbsentGoogle result
  | _ => contentAbsent result
  end.

(** What a provider answers once its request went out: a failure, or a
    success with a non-empty text. *)
Definition answered (r : ProviderResponse) : Prop :=
  (status r = 500 /\ response r = None) \/
  (status r = 200 /\ exists v, response r = Some v /\ truthy v = true).

(** A state of the store the agent can be in: its history is an array
    whose elements are message objects. *)
Definition wellFormed {W : Type} (st : Machine W) : Prop :=
  exists elems,
    heap st !! messageHistory (self st) = Some (OArray elems) /\
    Forall (fun r => is_Some (readMessage (heap st) r)) elems.

(** The configuration [query] hands to the provider: the one of the
    agent, with the messages assembled from the system prompt (when it is
    not empty), the history and the new input. *)
Definition assembled {W : Type} (st : Machine W) (input : string)
  : ProviderConfig :=
  withMessages (config (self st))
    ((if nonEmpty (systemPrompt (self st))
      then [{| role := "system"; content := JStr (systemPrompt (self st)) |}]
      else [])
     ++ history st ++ [{| role := "user"; content := JStr input |}]).

(** The state after the provider was called with [input] and left the
    world [w]. *)
Definition called {W : Type} (st : Machine W) (input : string) (w : W)
  : Machine W :=
  {| self := self st; heap := heap st; world := w;
     delegated := delegated st ++ [(input, assembled st input)] |}.

(** The two messages a recorded turn adds. *)
Definition turn (input : js) (r : ProviderResponse) : list Message :=
  [{| role := "user"; content := input |};
   {| role := "assistant"; content := responseText r |}].

Definition queryError (cause : string) : ProviderResponse :=
  failure 500 ("Error during query execution: " +:+ cause).

(** The invariant of a conversation: an even number of messages, none
    of them a system message. *)
Definition conversational {W : Type} (st : Machine W) : Prop :=
  Nat.even (length (history st)) = true /\
  Forall (fun m => role m <> "system") (history st).

(** The operations of an agent, as a caller issues them. *)
Inductive AgentOp : Type :=
| OpQuery (input keepHistory : js)
| OpClearHistory
| OpSetSystemPrompt (prompt : js)
| OpGetHistory.

Section Runs.
Context {W : Type}.
Variable boundProvider
  : outcome (string -> ProviderConfig -> M W ProviderResponse).

(** The state an operation leaves behind, whether it returned or
    threw. *)
Definition runOp (op : AgentOp) (st : Machine W) : Machine W :=
  match op with
  | OpQuery input keepHistory => snd (query boundProvider input keepHistory st)
  | OpClearHistory => snd (clearHistory st)
  | OpSetSystemPrompt prompt => snd (setSystemPrompt prompt st)
  | OpGetHistory => snd (getHistory st)
  end.

Definition runOps (ops : list AgentOp) (st : Machine W) : Machine W :=
  foldl (fun s op => runOp op s) st ops.
End Runs.

(** The agent [createAgent] builds, on a store [h], and the state its
    methods then start from. *)
Definition created {W : Type} (agent : Agent) (h : list obj) (w : W)
  : Machine W :=
  {| self := agent; heap := h; world := w; delegated := [] |}.

(** What a caller can do to an object it holds a reference to: replace
    the contents of an array (by [push], [pop], [splice], an assignment
    to an index or to [length]), or assign the fields of a message. *)
Definition callerWritesArray {W : Type} (r : loc) (elems : list loc)
    (st : Machine W) : Machine W :=
  withHeap (<[r := OArray elems]> (heap st)) st.

Definition callerWritesMessage {W : Type} (r : loc) (m : Message)
    (st : Machine W) : Machine W :=
  withHeap (<[r := OMessage m]> (heap st)) st.

(** The messages the array at [r] denotes. *)
Definition arrayMessages {W : Type} (r : loc) (st : Machine W)
  : list Message :=
  match heap st !! r with
  | Some (OArray elems) => readMessages (heap st) elems
  | _ => []
  end.

(** ** A scripted runtime, for running the code on examples *)

Module Script.

(** The conversion to a string, as far as the examples need it (they
    render no number and no array). *)
Definition toString (v : js) : string :=
  match v with
  | JUndefined => "undefined"
  | JNull => "null"
  | JBool true => "true"
  | JBool false => "false"
  | JStr s => s
  | JNum _ => "0"
  | JArr _ => ""
  | JObj _ => "[object Object]"
  end.

(** No script property is set, every request is answered by [reply]. *)
Definition runtime (reply : js) : Runtime unit :=
  {| getProperty := fun _ _ => None;
     fetch := fun _ w => (Return "body", w);
     JSON_parse := fun _ => Return reply;
     ToString := toString |}.

Definition offline : Net unit := {| outside := tt; sent := [] |}.

Definition noConfig : ProviderConfig :=
  {| apiKey := None; model := None; cfgSystemPrompt := None;
     temperature := None; max_tokens := None; messages := None;
     baseURL := None; referer := None; title := None |}.

Definition keyed : ProviderConfig :=
  {| apiKey := Some "sk-test"; model := None; cfgSystemPrompt := None;
     temperature := None; max_tokens := None; messages := None;
     baseURL := Some "https://llm.example"; referer := None;
     title := None |}.

(** [{choices: [{message: {content: text}}]}]. *)
Definition completion (text : string) : js :=
  JObj [("choices",
         JArr [JObj [("message", JObj [("content", JStr text)])]])].

(** A configuration that carries a conversation. *)
Definition conversation : list Message :=
  [{| role := "system"; content := JStr "Be brief." |};
   {| role := "user"; content := JStr "hi" |}].

Definition briefed : ProviderConfig :=
  {| apiKey := Some "sk-test"; model := None; cfgSystemPrompt := None;
     temperature := None; max_tokens := None;
     messages := Some conversation;
     baseURL := Some "https://llm.example"; referer := None;
     title := None |}.

(** [{apiKey: .., baseURL: .., temperature: 0, max_tokens: 0}]. *)
Definition cold : ProviderConfig :=
  {| apiKey := Some "sk-test"; model := None; cfgSystemPrompt := None;
     temperature := Some (Num (0 # 1)); max_tokens := Some (Num (0 # 1));
     messages := None;
     baseURL := Some "https://llm.example"; referer := None;
     title := None |}.

(** [{choices: []}]. *)
Definition noChoice : js := JObj [("choices", JArr [])].

(** [{candidates: []}]. *)
Definition noCandidate : js := JObj [("candidates", JArr [])].

(** The agent [createAgent("helper", "OpenAI", keyed)] builds in a new
    registry, before its first call. *)
Definition helper : Agent :=
  {| messageHistory := 0; systemPrompt := ""; config := keyed;
     providerName := "OpenAI" |}.

Definition session : Machine (Net unit) :=
  created helper [OArray []] offline.

(** The same agent after [query("hi")] was answered with "hello". *)
Definition talked : Machine (Net unit) :=
  snd (agentQuery (runtime (completion "hello")) (JStr "hi") JUndefined
                  session).

Definition forged : Message :=
  {| role := "system"; content := JStr "forged" |}.

(** A provider whose [generateResponse] throws. *)
Definition failing
  : outcome (string -> ProviderConfig -> M unit ProviderResponse) :=
  Return (fun _ _ w => (Throw "quota exceeded", w)).

Definition idle : Machine unit := created helper [OArray []] tt.

End Script.

(** ** Further vocabulary *)

(** The [error] member of the upstream answer is missing or falsy: the
    test [if (result.error)] fails. *)
Definition errorFalsy (result : js) : bool :=
  negb (truthy (default JUndefined (field "error" result))).

(** The generated text an upstream answer carries, when every link of
    the path to it is there: [choices[0].message.content], and
    [candidates[0].content.parts[0].text] for Google AI. *)
Definition generatedText (kind : ProviderKind) (result : js) : option js :=
  match kind with
  | GoogleAI =>
    match field "candidates" result with
    | Some (JArr (first :: _)) =>
      match field "content" first with
      | Some content =>
        match field "parts" content with
        | Some (JArr (part :: _)) => field "text" part
        | _ => None
        end
      | None => None
      end
    | _ => None
    end
  | _ =>
    match field "choices" result with
    | Some (JArr (first :: _)) =>
      match field "message" first with
      | Some message => field "content" message
      | None => None
      end
    | _ => None
    end
  end.

(** The header that carries the key. *)
Definition authHeader (kind : ProviderKind) (key : string) : string * string :=
  match kind with
  | GoogleAI => ("x-goog-api-key", key)
  | _ => ("Authorization", "Bearer " +:+ key)
  end.

(** The system message [query] puts in front when the prompt is not
    empty. *)
Definition systemMessages (prompt : string) : list Message :=
  if nonEmpty prompt then [{| role := "system"; content := JStr prompt |}]
  else [].

(** [stable a h a' h']: from the agent [a] on the store [h] to the agent
    [a'] on the store [h'], no message object was written, no array other
    than the history of [a] was written, and the history of [a'] is the
    one of [a] or an object that did not exist in [h]. *)
Definition stable (a : Agent) (h : list obj) (a' : Agent) (h' : list obj)
  : Prop :=
  (forall x m, readMessage h x = Some m -> readMessage h' x = Some m) /\
  (forall r l, r <> messageHistory a -> h !! r = Some (OArray l) ->
               h' !! r = Some (OArray l)) /\
  (messageHistory a' = messageHistory a \/ length h <= messageHistory a')%nat.

(** The array at [r] is not the history of the agent, and denotes the
    messages [ms]. *)
Definition keeps_array {W : Type} (r : loc) (ms : list Message)
    (st : Machine W) : Prop :=
  exists l,
    heap st !! r = Some (OArray l) /\
    Forall (fun x => is_Some (readMessage (heap st) x)) l /\
    readMessages (heap st) l = ms /\
    r <> messageHistory (self st).

(** *** [Example.gs]: [verifyApiKeysExample]

    The object it returns, as the list of its entries in the order of
    their insertion; the calls of [Logger.log] are left out. *)
Definition verifyApiKeysExample {W : Type} (rt : Runtime W) (w : W)
  : list (string * string) :=
  map (fun provider =>
         (provider,
          match keyOf (getProperty rt (provider +:+ "_API_KEY") w) with
          | Some _ => "Set"
          | None => "Not Set"
          end))
      ["OPENAI"; "GOOGLEAI"; "DEEPSEEK"; "OPENROUTER"; "GROQ"].

(** The name under which the example reports on a provider. *)
Definition reportName (kind : ProviderKind) : string :=
  match kind with
  | OpenAI => "OPENAI"
  | GoogleAI => "GOOGLEAI"
  | DeepSeek => "DEEPSEEK"
  | OpenRouter => "OPENROUTER"
  | Groq => "GROQ"
  | OpenAILike => "OPENAI_LIKE"
  end.

Module Scene.

(** The transport fails. *)
Definition down : Runtime unit :=
  {| getProperty := fun _ _ => None;
     fetch := fun _ w => (Throw "Address unavailable", w);
     JSON_parse := fun _ => Return JNull;
     ToString := Script.toString |}.

(** The body is not JSON. *)
Definition garbled : Runtime unit :=
  {| getProperty := fun _ _ => None;
     fetch := fun _ w => (Return "<html>", w);
     JSON_parse := fun _ => Throw "Unexpected token < in JSON at position 0";
     ToString := Script.toString |}.

(** [{error: {message: "Rate limit reached"}}]. *)
Definition refusal : js :=
  JObj [("error", JObj [("message", JStr "Rate limit reached")])].

(** [{candidates: [{content: {parts: [{text: text}]}}]}]. *)
Definition candidate (text : string) : js :=
  JObj [("candidates",
         JArr [JObj [("content",
                      JObj [("parts", JArr [JObj [("text", JStr text)]])])]])].

(** The script properties hold a key for Groq only. *)
Definition vault : Runtime unit :=
  {| getProperty := fun name _ =>
       if String.eqb name "GROQ_API_KEY" then Some "gsk-stored" else None;
     fetch := fun _ w => (Return "body", w);
     JSON_parse := fun _ => Return (Script.completion "hello");
     ToString := Script.toString |}.

(** [{apiKey: "", ...}]: an empty key. *)
Definition unkeyed : ProviderConfig :=
  {| apiKey := Some ""; model := None; cfgSystemPrompt := None;
     temperature := Some (Num (2 # 10)); max_tokens := Some (Num (50 # 1));
     messages := None; baseURL := None; referer := None; title := None |}.

(** A key and no endpoint. *)
Definition homeless : ProviderConfig :=
  {| apiKey := Some "sk-test"; model := None; cfgSystemPrompt := None;
     temperature := None; max_tokens := None; messages := None;
     baseURL := None; referer := None; title := None |}.

(** An agent for a custom endpoint, with a system prompt, after one
    recorded turn. *)
Definition guide : Agent :=
  {| messageHistory := 0; systemPrompt := "Be brief.";
     config := Script.keyed; providerName := "OpenAILike" |}.

Definition guided : Machine (Net unit) :=
  snd (agentQuery (Script.runtime (Script.completion "hello")) (JStr "hi")
                  JUndefined (created guide [OArray []] Script.offline)).

(** The same conversation held by an agent bound to OpenAI. *)
Definition plain : Machine (Net unit) :=
  withSelf {| messageHistory := 0; systemPrompt := "Be brief.";
              config := Script.keyed; providerName := "OpenAI" |} guided.

(** Two agents on one store. *)
Definition second : Agent :=
  {| messageHistory := 1; systemPrompt := ""; config := Script.keyed;
     providerName := "Groq" |}.

Definition pair : Machine (Net unit) :=
  created Script.helper [OArray []; OArray []] Script.offline.

(** An agent that [createAgent] bound to the inherited name
    [toString]. *)
Definition stray : Machine (Net unit) :=
  created {| messageHistory := 0; systemPrompt := "";
             config := Script.keyed; providerName := "toString" |}
          [OArray []] Script.offline.

(** The operations of [chatExample] in [Example.gs], after its first
    [getHistory]. *)
Definition later : list AgentOp :=
  [OpClearHistory; OpGetHistory;
   OpSetSystemPrompt (JStr "You are now a professional color expert.");
   OpQuery (JStr "Tell me about the psychology of blue.") JUndefined;
   OpQuery (JStr "What is your favorite season?") (JBool false);
   OpGetHistory].

End Scene.

(** * Properties *)

(** ** Providers *)

Section ProviderFacts.
Context {W : Type} (rt : Runtime W).

Lemma apiKeyOr_credential kind config (n : Net W) :
  exists k, apiKeyOr rt (apiKey config) (keyName kind) n = (Return k, n)
            /\ keyOf k = credential rt kind config (outside n).
Proof.
  unfold apiKeyOr, credential, keyOf.
  destruct (apiKey config) as [s|]; [destruct (nonEmpty s) eqn:E|];
    eexists; (split; [reflexivity|]); simpl; rewrite ?E; reflexivity.
Qed.

(** Every provider is the same three steps: resolve a key, check the
    endpoint, exchange one request under a [try]. *)
Lemma generateResponse_steps kind input config (n : Net W) :
  generateResponse rt kind input config n =
  match credential rt kind config (outside n) with
  | None => (Return (failure 400 (keyRequired kind)), n)
  | Some key =>
    if endpointGiven kind config then
      tryCatch (exchange rt kind (options kind input config key))
               (fun message =>
                  ret (failure 500 (catchPrefix kind +:+ message))) n
    else
      (Return (failure 400 "Base URL is required for OpenAILike provider."),
       n)
  end.
Proof.
  destruct (apiKeyOr_credential kind config n) as (k & Hk & Hc).
  rewrite <- Hc.
  destruct kind; simpl;
    unfold OpenAIProvider_generateResponse, GoogleAIProvider_generateResponse,
      DeepSeekProvider_generateResponse, OpenRouterProvider_generateResponse,
      GroqProvider_generateResponse, OpenAILikeProvider_generateResponse;
    unfold bind at 1; simpl in Hk; rewrite Hk;
    destruct (keyOf k) as [key|]; try reflexivity.
  destruct (keyOf (baseURL config)); reflexivity.
Qed.

Lemma fallbackText_nonEmpty kind : nonEmpty (fallbackText kind) = true.
Proof. destruct kind; reflexivity. Qed.

Lemma truthy_jsOr v s : nonEmpty s = true -> truthy (jsOr v (JStr s)) = true.
Proof. intros H. unfold jsOr. destruct (truthy v) eqn:E; [exact E | exact H]. Qed.

(** The [try] of a provider never throws, sends exactly the request it
    was given, and answers with a failure or with a non-empty text. *)
Lemma exchange_answered kind req (n : Net W) :
  exists r,
    tryCatch (exchange rt kind req)
             (fun message => ret (failure 500 (catchPrefix kind +:+ message))) n
    = (Return r, {| outside := snd (fetch rt req (outside n));
                    sent := sent n ++ [req] |})
    /\ answered r.
Proof.
  assert (Hgen : forall apiError fallback, nonEmpty fallback = true ->
    exists r,
      tryCatch (chatExchange rt req apiError fallback)
               (fun message => ret (failure 500 (catchPrefix kind +:+ message))) n
      = (Return r, {| outside := snd (fetch rt req (outside n));
                      sent := sent n ++ [req] |})
      /\ answered r).
  { intros apiError fallback Hfb.
    unfold tryCatch, chatExchange, bind, UrlFetchApp_fetch, lift, ret.
    destruct (fetch rt req (outside n)) as [[body|e] w]; simpl;
      [|eexists; split; [reflexivity|left; split; reflexivity]].
    destruct (JSON_parse rt body) as [result|e]; simpl;
      [|eexists; split; [reflexivity|left; split; reflexivity]].
    destruct (getProp result "error") as [err|e]; simpl;
      [|eexists; split; [reflexivity|left; split; reflexivity]].
    destruct (truthy err).
    - destruct (getProp err "message") as [m|e]; simpl;
        eexists; (split; [reflexivity|left; split; reflexivity]).
    - destruct (choicesContent result) as [text|e]; simpl;
        [|eexists; split; [reflexivity|left; split; reflexivity]].
      eexists; split; [reflexivity|]. right. split; [reflexivity|].
      eexists; split; [reflexivity|]. by apply truthy_jsOr. }
  destruct kind; simpl; try (apply Hgen; reflexivity).
  unfold tryCatch, generateContentExchange, bind, UrlFetchApp_fetch, lift, ret.
  destruct (fetch rt req (outside n)) as [[body|e] w]; simpl;
    [|eexists; split; [reflexivity|left; split; reflexivity]].
  destruct (JSON_parse rt body) as [result|e]; simpl;
    [|eexists; split; [reflexivity|left; split; reflexivity]].
  destruct (getProp result "error") as [err|e]; simpl;
    [|eexists; split; [reflexivity|left; split; reflexivity]].
  destruct (truthy err).
  - destruct (getProp err "message") as [m|e]; simpl;
      eexists; (split; [reflexivity|left; split; reflexivity]).
  - destruct (candidatesText result) as [text|e]; simpl;
      [|eexists; split; [reflexivity|left; split; reflexivity]].
    eexists; split; [reflexivity|]. right. split; [reflexivity|].
    eexists; split; [reflexivity|]. by apply truthy_jsOr.
Qed.

(** A provider never throws; a success always carries a non-empty
    text. *)
Lemma generateResponse_returns kind input config (n : Net W) :
  exists r n',
    generateResponse rt kind input config n = (Return r, n') /\
    (status r = 200 -> exists v, response r = Some v /\ truthy v = true).
Proof.
  rewrite generateResponse_steps.
  destruct (credential rt kind config (outside n)) as [key|].
  - destruct (endpointGiven kind config).
    + destruct (exchange_answered kind (options kind input config key) n)
        as (r & -> & [[Hs _]|[_ Hv]]); do 2 eexists; (split; [reflexivity|]).
      * rewrite Hs. discriminate.
      * intros _. exact Hv.
    + do 2 eexists; split; [reflexivity|]. discriminate.
  - do 2 eexists; split; [reflexivity|]. discriminate.
Qed.

(** With a key (and an endpoint) a provider sends exactly one request,
    the one its [options] describe. *)
Lemma generateResponse_sent kind input config (n : Net W) key :
  credential rt kind config (outside n) = Some key ->
  endpointGiven kind config = true ->
  sent (snd (generateResponse rt kind input config n))
  = sent n ++ [options kind input config key].
Proof.
  intros Hc He. rewrite generateResponse_steps, Hc, He.
  destruct (exchange_answered kind (options kind input config key) n)
    as (r & -> & _). reflexivity.
Qed.

End ProviderFacts.

Lemma length_append (s1 s2 : string) :
  String.length (s1 +:+ s2) = (String.length s1 + String.length s2)%nat.
Proof. induction s1 as [|c s1 IH]; simpl; [reflexivity | by rewrite IH]. Qed.

(** C1, at an input where the code departs from it.  [OpenAIProvider],
    [DeepSeekProvider], [OpenRouterProvider] and [GroqProvider], given a
    configuration whose [messages] holds a conversation, send a body whose
    messages are the single user message made from [input]: the
    conversation is dropped. *)
Theorem chat_providers_drop_messages {W : Type} (rt : Runtime W) (n : Net W) :
  messages Script.briefed = Some Script.conversation /\
  Script.conversation <> [userMessage "hi"] /\
  Forall (fun kind =>
            exists req,
              sent (snd (generateResponse rt kind "hi" Script.briefed n))
              = sent n ++ [req] /\
              payloadMessages (payload req) = Some [userMessage "hi"])
         [OpenAI; DeepSeek; OpenRouter; Groq].
Proof.
  split; [reflexivity|]. split; [discriminate|].
  repeat constructor;
    (eexists; split;
     [apply (generateResponse_sent rt _ "hi" Script.briefed n "sk-test");
      reflexivity | reflexivity]).
Qed.

(** The provider for custom endpoints does what C1 asks: the configured
    messages go out when there are some, the user message otherwise. *)
Lemma OpenAILike_sends_messages {W : Type} (rt : Runtime W) input config
    (n : Net W) key :
  credential rt OpenAILike config (outside n) = Some key ->
  endpointGiven OpenAILike config = true ->
  exists req,
    sent (snd (generateResponse rt OpenAILike input config n)) = sent n ++ [req]
    /\ payloadMessages (payload req)
       = Some (match messages config with
               | Some ms => ms
               | None => [userMessage input]
               end).
Proof.
  intros Hc He. eexists. split;
    [by apply generateResponse_sent | reflexivity].
Qed.

(** C3, at an input where the code departs from it.  Every provider,
    given [temperature: 0] and [max_tokens: 0], sends the defaults [0.7]
    and [100] instead of the configured values. *)
Theorem zero_settings_replaced {W : Type} (rt : Runtime W) (n : Net W)
    (kind : ProviderKind) :
  temperature Script.cold = Some (Num (0 # 1)) /\
  max_tokens Script.cold = Some (Num (0 # 1)) /\
  exists req,
    sent (snd (generateResponse rt kind "hi" Script.cold n)) = sent n ++ [req]
    /\ payloadTemperature (payload req) = Num (7 # 10)
    /\ payloadMaxTokens (payload req) = Num (100 # 1).
Proof.
  split; [reflexivity|]. split; [reflexivity|].
  eexists. split.
  - apply (generateResponse_sent rt kind "hi" Script.cold n "sk-test");
      by destruct kind.
  - by destruct kind.
Qed.

(** A setting that is present and not zero is the one sent. *)
Lemma nonzero_settings_kept {W : Type} (rt : Runtime W) kind input config
    (n : Net W) key t m :
  credential rt kind config (outside n) = Some key ->
  endpointGiven kind config = true ->
  temperature config = Some t -> numberTruthy t = true ->
  max_tokens config = Some m -> numberTruthy m = true ->
  exists req,
    sent (snd (generateResponse rt kind input config n)) = sent n ++ [req]
    /\ payloadTemperature (payload req) = t
    /\ payloadMaxTokens (payload req) = m.
Proof.
  intros Hc He Ht Htt Hm Hmt. eexists. split;
    [by apply generateResponse_sent|].
  destruct kind; simpl; rewrite Ht, Hm; simpl; rewrite Htt, Hmt; by split.
Qed.

(** C4, amended.  When [config.apiKey] is absent and the script property
    of the provider holds no value, [generateResponse] returns status 400
    and sends nothing.  The error is ["<name> API key is required."] with
    the name OpenAI, Google AI, DeepSeek, OpenRouter or Groq; the provider
    for custom endpoints names no provider: its error is
    ["API key is required."]. *)
Theorem missing_key_rejected {W : Type} (rt : Runtime W) kind input config
    (n : Net W) :
  apiKey config = None ->
  getProperty rt (keyName kind) (outside n) = None ->
  generateResponse rt kind input config n
  = (Return (failure 400 (keyRequired kind)), n).
Proof.
  intros Hk Hp. rewrite generateResponse_steps.
  unfold credential. by rewrite Hk, Hp.
Qed.

Lemma missing_key_rejected_witness :
  apiKey Script.noConfig = None /\
  getProperty (Script.runtime JNull) (keyName Groq) (outside Script.offline)
  = None /\
  generateResponse (Script.runtime JNull) Groq "hi" Script.noConfig
                   Script.offline
  = (Return (failure 400 "Groq API key is required."), Script.offline).
Proof.
  split; [reflexivity|]. split; [reflexivity|].
  apply (missing_key_rejected (Script.runtime JNull) Groq "hi"
                              Script.noConfig Script.offline);
    reflexivity.
Defined.

(** C4 as it is written fails for the provider for custom endpoints: no
    provider name whatsoever makes its error read
    ["<name> API key is required."]. *)
Lemma missing_key_unnamed :
  apiKey Script.noConfig = None /\
  getProperty (Script.runtime JNull) (keyName OpenAILike)
              (outside Script.offline) = None /\
  ~ exists name,
      fst (generateResponse (Script.runtime JNull) OpenAILike "hi"
                            Script.noConfig Script.offline)
      = Return (failure 400 (name +:+ " API key is required.")).
Proof.
  split; [reflexivity|]. split; [reflexivity|].
  intros [name H]. simpl in H. injection H as H.
  apply (f_equal String.length) in H.
  rewrite length_append in H. simpl in H. lia.
Qed.

Lemma getProp_field v key x : field key v = Some x -> getProp v key = Return x.
Proof. destruct v; simpl; try discriminate. by intros ->. Qed.

Lemma getProp_no_field v key :
  field key v = None -> nullish v = false -> getProp v key = Return JUndefined.
Proof. destruct v; simpl; try discriminate; try reflexivity. by intros ->. Qed.

Lemma errorFieldAbsent_read result :
  errorFieldAbsent result = true -> getProp result "error" = Return JUndefined.
Proof.
  destruct result; simpl; try discriminate.
  intros H. apply bool_decide_eq_true in H. by rewrite H.
Qed.

Lemma contentAbsent_read result :
  contentAbsent result = true -> choicesContent result = Return JUndefined.
Proof.
  unfold contentAbsent, choicesContent.
  destruct (field "choices" result) as [[| | | | |items|]|] eqn:Hc;
    try discriminate.
  rewrite (getProp_field _ _ _ Hc). simpl.
  destruct items as [|first rest]; [reflexivity|]. simpl.
  destruct (nullish first) eqn:Hn; [reflexivity|].
  destruct (field "message" first) as [message|] eqn:Hm.
  - rewrite (getProp_field _ _ _ Hm). simpl.
    destruct (nullish message) eqn:Hnm; [reflexivity|].
    destruct (field "content" message) eqn:Hct; [discriminate|].
    intros _. by apply getProp_no_field.
  - intros _. by rewrite (getProp_no_field _ _ Hm Hn).
Qed.

Lemma textAbsentGoogle_read result :
  textAbsentGoogle result = true -> candidatesText result = Return JUndefined.
Proof.
  unfold textAbsentGoogle, candidatesText.
  destruct (field "candidates" result) as [[| | | | |items|]|] eqn:Hc;
    try discriminate.
  rewrite (getProp_field _ _ _ Hc). simpl.
  destruct items as [|first rest]; [reflexivity|]. simpl.
  destruct (nullish first) eqn:Hn; [reflexivity|].
  destruct (field "content" first) as [content|] eqn:Hm.
  - rewrite (getProp_field _ _ _ Hm). simpl.
    destruct (nullish content) eqn:Hnc; [reflexivity|].
    destruct (field "parts" content) as [[| | | | |parts|]|] eqn:Hp;
      try discriminate.
    rewrite (getProp_field _ _ _ Hp). simpl.
    destruct parts as [|part more]; [reflexivity|]. simpl.
    destruct (nullish part) eqn:Hnp; [reflexivity|].
    destruct (field "text" part) eqn:Ht; [discriminate|].
    intros _. by apply getProp_no_field.
  - intros _. by rewrite (getProp_no_field _ _ Hm Hn).
Qed.

(** C5, amended.  Given an upstream response that parses to an object
    without an [error] field, in which the array of choices (of
    candidates, for Google AI) is there and the generated text below it is
    absent, [generateResponse] returns status 200 with the text
    ["No response from <name>."], where the name is OpenAI, Google AI,
    DeepSeek, OpenRouter or Groq, and the word API for the provider for
    custom endpoints. *)
Theorem absent_text_fallback {W : Type} (rt : Runtime W) kind input config
    (n : Net W) key body w result :
  credential rt kind config (outside n) = Some key ->
  endpointGiven kind config = true ->
  fetch rt (options kind input config key) (outside n) = (Return body, w) ->
  JSON_parse rt body = Return result ->
  errorFieldAbsent result = true ->
  textAbsent kind result = true ->
  generateResponse rt kind input config n
  = (Return (success (JStr (fallbackText kind))),
     {| outside := w; sent := sent n ++ [options kind input config key] |}).
Proof.
  intros Hc He Hf Hp Herr Htxt.
  rewrite generateResponse_steps, Hc, He.
  assert (Hchat : forall apiError fallback,
    contentAbsent result = true ->
    tryCatch (chatExchange rt (options kind input config key) apiError fallback)
             (fun message => ret (failure 500 (catchPrefix kind +:+ message))) n
    = (Return (success (JStr fallback)),
       {| outside := w; sent := sent n ++ [options kind input config key] |})).
  { intros apiError fallback Habs.
    unfold tryCatch, chatExchange, bind, UrlFetchApp_fetch, lift, ret.
    rewrite Hf. simpl. rewrite Hp. simpl.
    rewrite (errorFieldAbsent_read _ Herr). simpl.
    by rewrite (contentAbsent_read _ Habs). }
  destruct kind; simpl in Htxt; try (by apply Hchat).
  unfold exchange, tryCatch, generateContentExchange, bind, UrlFetchApp_fetch,
    lift, ret.
  rewrite Hf. simpl. rewrite Hp. simpl.
  rewrite (errorFieldAbsent_read _ Herr). simpl.
  by rewrite (textAbsentGoogle_read _ Htxt).
Qed.

Lemma absent_text_fallback_witness :
  credential (Script.runtime Script.noCandidate) GoogleAI Script.keyed
             (outside Script.offline) = Some "sk-test" /\
  endpointGiven GoogleAI Script.keyed = true /\
  fetch (Script.runtime Script.noCandidate)
        (options GoogleAI "hi" Script.keyed "sk-test") (outside Script.offline)
  = (Return "body", tt) /\
  JSON_parse (Script.runtime Script.noCandidate) "body"
  = Return Script.noCandidate /\
  errorFieldAbsent Script.noCandidate = true /\
  textAbsent GoogleAI Script.noCandidate = true /\
  fst (generateResponse (Script.runtime Script.noCandidate) GoogleAI "hi"
                        Script.keyed Script.offline)
  = Return (success (JStr "No response from Google AI.")).
Proof.
  repeat (split; [reflexivity|]).
  rewrite (absent_text_fallback (Script.runtime Script.noCandidate) GoogleAI
             "hi" Script.keyed Script.offline "sk-test" "body" tt
             Script.noCandidate); reflexivity.
Defined.

(** C5 as it is written fails for the provider for custom endpoints: on
    [{choices: []}] its text is ["No response from API."], which does not
    carry the name of the provider. *)
Lemma fallback_unnamed :
  errorFieldAbsent Script.noChoice = true /\
  textAbsent OpenAILike Script.noChoice = true /\
  fst (generateResponse (Script.runtime Script.noChoice) OpenAILike "hi"
                        Script.keyed Script.offline)
  = Return (success (JStr "No response from API.")) /\
  fst (generateResponse (Script.runtime Script.noChoice) OpenAILike "hi"
                        Script.keyed Script.offline)
  <> Return (success (JStr ("No response from " +:+ kindName OpenAILike +:+ "."))).
Proof.
  split; [reflexivity|]. split; [reflexivity|]. split; [reflexivity|].
  discriminate.
Qed.

(** Outside the amended C5: when the array of choices itself is missing,
    reading [choices[0]] throws, and the [catch] turns it into status
    500. *)
Example missing_choices_is_an_error :
  fst (generateResponse (Script.runtime (JObj [])) OpenAI "hi" Script.keyed
                        Script.offline)
  = Return (failure 500
      "OpenAIProvider error: Cannot read properties of undefined (reading '0')").
Proof. reflexivity. Qed.

(** ** The object store *)

Lemma readMessage_app h ext r :
  is_Some (readMessage h r) -> readMessage (h ++ ext) r = readMessage h r.
Proof.
  unfold readMessage. intros [m Hm].
  destruct (h !! r) as [o|] eqn:E; [|discriminate].
  by rewrite (lookup_app_l_Some _ _ _ _ E).
Qed.

Lemma readMessages_cons h r l :
  readMessages h (r :: l)
  = match readMessage h r with
    | Some m => m :: readMessages h l
    | None => readMessages h l
    end.
Proof. reflexivity. Qed.

Lemma readMessages_app h ext l :
  Forall (fun r => is_Some (readMessage h r)) l ->
  readMessages (h ++ ext) l = readMessages h l.
Proof.
  induction 1 as [|r l Hr _ IH]; [reflexivity|].
  by rewrite !readMessages_cons, readMessage_app, IH.
Qed.

Lemma readMessage_new h m ext :
  readMessage (h ++ OMessage m :: ext) (length h) = Some m.
Proof. unfold readMessage. by rewrite list_lookup_middle. Qed.

(** Writing an array over an array changes no message. *)
Lemma readMessage_array_write h a old new r :
  h !! a = Some (OArray old) ->
  readMessage (<[a := OArray new]> h) r = readMessage h r.
Proof.
  intros Ha. unfold readMessage. destruct (decide (r = a)) as [->|Hne].
  - rewrite list_lookup_insert_eq by (by eapply lookup_lt_Some).
    by rewrite Ha.
  - by rewrite list_lookup_insert_ne.
Qed.

Lemma readMessages_array_write h a old new l :
  h !! a = Some (OArray old) ->
  readMessages (<[a := OArray new]> h) l = readMessages h l.
Proof.
  intros Ha. induction l as [|r l IH]; [reflexivity|].
  by rewrite !readMessages_cons, (readMessage_array_write _ _ _ _ _ Ha), IH.
Qed.

Lemma readMessages_snoc h l rs :
  readMessages h (l ++ rs) = readMessages h l ++ readMessages h rs.
Proof. unfold readMessages. apply omap_app. Qed.

Lemma readMessages_valid_length h l :
  Forall (fun r => is_Some (readMessage h r)) l ->
  length (readMessages h l) = length l.
Proof.
  induction 1 as [|r l [m Hm] _ IH]; [reflexivity|].
  rewrite readMessages_cons, Hm. simpl. by rewrite IH.
Qed.

Section AgentFacts.
Context {W : Type}.
Variable boundProvider
  : outcome (string -> ProviderConfig -> M W ProviderResponse).

Lemma wellFormed_history (st : Machine W) elems :
  heap st !! messageHistory (self st) = Some (OArray elems) ->
  history st = readMessages (heap st) elems.
Proof. intros H. unfold history. by rewrite H. Qed.

(** [push] on a well-formed agent appends the two messages and nothing
    else. *)
Lemma pushHistory_appends (st : Machine W) m1 m2 :
  wellFormed st ->
  exists st',
    pushHistory m1 m2 st = (Return tt, st') /\
    wellFormed st' /\
    history st' = history st ++ [m1; m2] /\
    self st' = self st /\ world st' = world st /\
    delegated st' = delegated st.
Proof.
  intros (elems & Ha & Hall).
  set (a := messageHistory (self st)) in *.
  set (h := heap st) in *.
  set (h2 := (h ++ [OMessage m1]) ++ [OMessage m2]).
  assert (Ha2 : h2 !! a = Some (OArray elems)).
  { unfold h2. by do 2 apply lookup_app_l_Some. }
  assert (Hh2 : h2 = h ++ [OMessage m1; OMessage m2]).
  { unfold h2. by rewrite <- app_assoc. }
  assert (H1 : readMessage h2 (length h) = Some m1).
  { rewrite Hh2. apply readMessage_new. }
  assert (H2 : readMessage h2 (length (h ++ [OMessage m1])) = Some m2).
  { unfold h2. apply readMessage_new. }
  unfold pushHistory, alloc. fold h. fold a. fold h2. rewrite Ha2.
  eexists. split; [reflexivity|].
  assert (Hnew : <[a := OArray (elems ++ [length h; length (h ++ [OMessage m1])])]> h2
                 !! a
                 = Some (OArray (elems ++ [length h; length (h ++ [OMessage m1])]))).
  { apply list_lookup_insert_eq. by eapply lookup_lt_Some. }
  assert (Hold : readMessages h2 elems = readMessages h elems).
  { rewrite Hh2. by apply readMessages_app. }
  split; [|split; [|by repeat split]].
  - exists (elems ++ [length h; length (h ++ [OMessage m1])]).
    split; [exact Hnew|]. simpl.
    apply Forall_app. split.
    + eapply Forall_impl; [exact Hall|]. intros r Hr. simpl in Hr.
      rewrite (readMessage_array_write _ _ _ _ _ Ha2).
      rewrite Hh2. by rewrite readMessage_app.
    + repeat constructor;
        rewrite (readMessage_array_write _ _ _ _ _ Ha2); by eexists.
  - unfold history at 1. simpl. fold a. rewrite Hnew.
    rewrite (readMessages_array_write _ _ _ _ _ Ha2).
    rewrite readMessages_snoc, Hold.
    rewrite (wellFormed_history st elems Ha). f_equal.
    by rewrite !readMessages_cons, H1, H2.
Qed.

End AgentFacts.

(** ** The agent *)

Section QueryFacts.
Context {W : Type}.
Variable boundProvider
  : outcome (string -> ProviderConfig -> M W ProviderResponse).

Lemma wellFormed_called (st : Machine W) input w :
  wellFormed st -> wellFormed (called st input w).
Proof. intros H. exact H. Qed.

(** The guard of [query]: anything but a non-empty string is answered
    at once. *)
Lemma query_guard (st : Machine W) input keepHistory :
  (forall s, input = JStr s -> s = "") ->
  query boundProvider input keepHistory st
  = (Return (failure 400 "Input must be a non-empty string."), st).
Proof.
  intros H. unfold query.
  destruct input as [| |b|n|s|items|fields]; simpl;
    rewrite ?orb_true_r; try reflexivity.
  by rewrite (H s eq_refl).
Qed.

(** An input is a non-empty string, or the guard applies. *)
Lemma input_cases (input : js) :
  (exists s, input = JStr s /\ nonEmpty s = true) \/
  (forall s, input = JStr s -> s = "").
Proof.
  destruct input as [| |b|n|s|items|fields]; try (right; discriminate).
  destruct (nonEmpty s) eqn:Hs; [left; by exists s|].
  right. intros s' [= <-]. unfold nonEmpty in Hs.
  apply negb_false_iff in Hs. by apply String.eqb_eq in Hs.
Qed.

(** What [query] does with a non-empty string on a well-formed agent. *)
Lemma query_accepted (st : Machine W) s keepHistory :
  wellFormed st -> nonEmpty s = true ->
  exists r st',
    query boundProvider (JStr s) keepHistory st = (Return r, st') /\
    wellFormed st' /\
    history st'
    = (if (status r =? 200) && keeps keepHistory
       then history st ++ turn (JStr s) r else history st) /\
    match boundProvider with
    | Throw e => r = queryError e /\ st' = st
    | Return generate =>
      match generate s (assembled st s) (world st) with
      | (Throw e, w) => r = queryError e /\ st' = called st s w
      | (Return answer, w) =>
        r = answer /\ world st' = w /\
        delegated st' = delegated (called st s w)
      end
    end.
Proof.
  intros Hwf Hs. pose proof Hwf as (elems & Ha & Hall).
  unfold query. simpl. rewrite Hs. simpl.
  unfold tryCatch, queryBody, bind at 1, gets at 1.
  unfold bind at 1, historyElems. rewrite Ha.
  unfold bind at 1, gets at 1. unfold bind at 1, gets at 1.
  unfold bind at 1, delegate.
  rewrite <- (wellFormed_history st elems Ha).
  change (withMessages (config (self st)) _) with (assembled st s).
  destruct boundProvider as [generate|e].
  - destruct (generate s (assembled st s) (world st)) as [[answer|e] w] eqn:Hg.
    + fold (called st s w).
      destruct ((status answer =? 200) && keeps keepHistory) eqn:Hc.
      * destruct (pushHistory_appends (called st s w)
                    {| role := "user"; content := JStr s |}
                    {| role := "assistant"; content := responseText answer |}
                    (wellFormed_called st s w Hwf))
          as (st' & Hp & Hwf' & Hh & _ & Hw & Hd).
        unfold bind, ret. rewrite Hp.
        exists answer, st'. rewrite Hc. by repeat split.
      * unfold ret. exists answer, (called st s w). rewrite Hc.
        by repeat split.
    + exists (queryError e), (called st s w). by repeat split.
  - exists (queryError e), st. by repeat split.
Qed.

End QueryFacts.

Lemma session_wellFormed : wellFormed Script.session.
Proof. exists []. split; [reflexivity | constructor]. Qed.

Lemma idle_wellFormed : wellFormed Script.idle.
Proof. exists []. split; [reflexivity | constructor]. Qed.

(** C8.  For an input that is not a non-empty string (the empty string,
    or a value that is no string), [query] returns status 400 with the
    error ["Input must be a non-empty string."] and leaves the state as
    it was: the provider is not called and the history is unchanged. *)
Theorem query_rejects_input {W : Type}
    (boundProvider : outcome (string -> ProviderConfig -> M W ProviderResponse))
    (st : Machine W) input keepHistory :
  (forall s, input = JStr s -> s = "") ->
  query boundProvider input keepHistory st
  = (Return (failure 400 "Input must be a non-empty string."), st) /\
  delegated (snd (query boundProvider input keepHistory st)) = delegated st /\
  world (snd (query boundProvider input keepHistory st)) = world st /\
  history (snd (query boundProvider input keepHistory st)) = history st.
Proof.
  intros H. by rewrite (query_guard boundProvider st input keepHistory H).
Qed.

Lemma query_rejects_input_witness :
  (forall s, JStr "" = JStr s -> s = "") /\
  query Script.failing (JStr "") JUndefined Script.idle
  = (Return (failure 400 "Input must be a non-empty string."), Script.idle) /\
  delegated (snd (query Script.failing (JStr "") JUndefined Script.idle)) = [] /\
  world (snd (query Script.failing (JStr "") JUndefined Script.idle)) = tt /\
  history (snd (query Script.failing (JStr "") JUndefined Script.idle)) = [].
Proof.
  split.
  - intros s H. injection H as <-. reflexivity.
  - apply (query_rejects_input Script.failing Script.idle (JStr "") JUndefined).
    intros s H. injection H as <-. reflexivity.
Defined.

(** C7.  [query] always returns a response and never throws; whatever
    is thrown inside its [try] block, and in particular by the
    provider's [generateResponse], comes back as status 500 with the
    error ["Error during query execution: <cause>"]. *)
Theorem query_total {W : Type}
    (boundProvider : outcome (string -> ProviderConfig -> M W ProviderResponse))
    (st : Machine W) input keepHistory :
  (exists r st', query boundProvider input keepHistory st = (Return r, st'))
  /\
  (forall s e st',
      input = JStr s -> nonEmpty s = true ->
      queryBody boundProvider s keepHistory st = (Throw e, st') ->
      query boundProvider input keepHistory st
      = (Return (queryError e), st'))
  /\
  (forall generate s e w,
      boundProvider = Return generate ->
      input = JStr s -> nonEmpty s = true -> wellFormed st ->
      generate s (assembled st s) (world st) = (Throw e, w) ->
      query boundProvider input keepHistory st
      = (Return (queryError e), called st s w)).
Proof.
  split; [|split].
  - unfold query.
    destruct (negb (truthy input) || negb (isString input));
      [by do 2 eexists|].
    unfold tryCatch.
    destruct (queryBody boundProvider (stringOf input) keepHistory st)
      as [[r|e] st']; by do 2 eexists.
  - intros s e st' -> Hs Hb. unfold query. simpl. rewrite Hs. simpl.
    unfold tryCatch. by rewrite Hb.
  - intros generate s e w Hbp -> Hs Hwf Hg.
    destruct (query_accepted boundProvider st s keepHistory Hwf Hs)
      as (r & st' & Hq & _ & _ & Hcase).
    rewrite Hbp, Hg in Hcase. destruct Hcase as [-> ->]. exact Hq.
Qed.

Lemma query_total_witness :
  nonEmpty "hi" = true /\ wellFormed Script.idle /\
  query Script.failing (JStr "hi") JUndefined Script.idle
  = (Return (failure 500 "Error during query execution: quota exceeded"),
     called Script.idle "hi" tt).
Proof.
  split; [reflexivity|]. split; [exact idle_wellFormed|].
  apply (proj2 (proj2 (query_total Script.failing Script.idle (JStr "hi")
                                   JUndefined))
               (fun _ _ w => (Throw "quota exceeded", w)) "hi"
               "quota exceeded" tt);
    [reflexivity | reflexivity | reflexivity | exact idle_wellFormed
    | reflexivity].
Defined.

(** C2.  On an agent of the registry with history [H], [query] leaves the
    history [H ++ [{user, input}, {assistant, text}]] exactly when it
    returns status 200, [keepHistory] holds and the text of the response
    is not empty; in every other case the history is [H].  (The code tests
    the status and [keepHistory]; the text of a success is never empty,
    since every provider substitutes its fallback.) *)
Theorem query_records_turn {W : Type} (rt : Runtime W)
    (st : Machine (Net W)) input keepHistory :
  wellFormed st ->
  exists r st',
    agentQuery rt input keepHistory st = (Return r, st') /\
    history st'
    = (if (status r =? 200) && keeps keepHistory && truthy (responseText r)
       then history st ++ turn input r else history st).
Proof.
  intros Hwf. unfold agentQuery.
  set (bp := bound rt (providerName (self st))).
  assert (Hrej : (forall s, input = JStr s -> s = "") ->
    exists r st',
      query bp input keepHistory st = (Return r, st') /\
      history st'
      = (if (status r =? 200) && keeps keepHistory && truthy (responseText r)
         then history st ++ turn input r else history st)).
  { intros H. rewrite (query_guard bp st input keepHistory H).
    by do 2 eexists. }
  destruct (input_cases input) as [(s & -> & Hs)|Hbad]; [|by apply Hrej].
  destruct (query_accepted bp st s keepHistory Hwf Hs)
    as (r & st' & Hq & _ & Hh & Hcase).
  exists r, st'. split; [exact Hq|]. rewrite Hh.
  destruct (status r =? 200) eqn:Hst; [|reflexivity].
  destruct (keeps keepHistory); [|reflexivity]. simpl.
  assert (Ht : truthy (responseText r) = true); [|by rewrite Ht].
  apply Z.eqb_eq in Hst. unfold bp, bound in Hcase.
  destruct (assoc (providerName (self st)) providers) as [kind|].
  - destruct (generateResponse_returns rt kind s (assembled st s) (world st))
      as (answer & n' & Hg & Hok).
    rewrite Hg in Hcase. destruct Hcase as (-> & _).
    destruct (Hok Hst) as (v & Hv & Htv). unfold responseText. by rewrite Hv.
  - destruct (inherited (providerName (self st)));
      destruct Hcase as [-> _]; discriminate.
Qed.

Lemma query_records_turn_witness :
  wellFormed Script.session /\
  exists r st',
    agentQuery (Script.runtime (Script.completion "hello")) (JStr "hi")
               JUndefined Script.session = (Return r, st') /\
    history st'
    = (if (status r =? 200) && keeps JUndefined && truthy (responseText r)
       then history Script.session ++ turn (JStr "hi") r
       else history Script.session).
Proof.
  split; [exact session_wellFormed|].
  apply (query_records_turn (Script.runtime (Script.completion "hello"))
                            Script.session (JStr "hi") JUndefined).
  exact session_wellFormed.
Defined.

(** The test of [query] itself is [status === 200 && keepHistory]: bound
    to a hand-made provider that answers 200 with an empty text, it
    records the turn.  No provider of the registry does so. *)
Remark query_trusts_the_provider :
  history (snd (query (Return (fun _ _ w => (Return (success (JStr "")), w)))
                      (JStr "hi") JUndefined Script.idle))
  = [{| role := "user"; content := JStr "hi" |};
     {| role := "assistant"; content := JStr "" |}].
Proof. reflexivity. Qed.

Section InvariantFacts.
Context {W : Type}.
Variable boundProvider
  : outcome (string -> ProviderConfig -> M W ProviderResponse).

(** A copy of the history is a new array that denotes the messages of
    the history. *)
Lemma getHistory_fresh (st : Machine W) :
  wellFormed st ->
  exists elems st',
    getHistory st = (Return (length (heap st)), st') /\
    self st' = self st /\
    heap st' = heap st ++ [OArray elems] /\
    heap st !! messageHistory (self st) = Some (OArray elems) /\
    wellFormed st' /\
    history st' = history st /\
    arrayMessages (length (heap st)) st' = history st.
Proof.
  intros (elems & Ha & Hall).
  exists elems. eexists.
  unfold getHistory, bind, historyElems, alloc. rewrite Ha.
  do 4 (split; [reflexivity|]).
  assert (Ha' : (heap st ++ [OArray elems]) !! messageHistory (self st)
                = Some (OArray elems)) by (by apply lookup_app_l_Some).
  split; [|split].
  - exists elems. split; [exact Ha'|]. simpl.
    eapply Forall_impl; [exact Hall|]. intros r Hr. simpl in Hr.
    by rewrite readMessage_app.
  - unfold history. simpl. rewrite Ha', Ha. by apply readMessages_app.
  - unfold arrayMessages, history. simpl.
    rewrite list_lookup_middle by reflexivity. rewrite Ha.
    by apply readMessages_app.
Qed.

Lemma clearHistory_empties (st : Machine W) :
  exists st',
    clearHistory st = (Return tt, st') /\ wellFormed st' /\
    history st' = [] /\ systemPrompt (self st') = systemPrompt (self st).
Proof.
  eexists. split; [reflexivity|].
  assert (H : (heap st ++ [OArray []]) !! length (heap st)
              = Some (OArray [])) by (by apply list_lookup_middle).
  split; [|split; [|reflexivity]].
  - exists []. split; [exact H | constructor].
  - unfold history. simpl. by rewrite H.
Qed.

Lemma setSystemPrompt_keeps_store (st : Machine W) prompt :
  heap (snd (setSystemPrompt prompt st)) = heap st /\
  messageHistory (self (snd (setSystemPrompt prompt st)))
  = messageHistory (self st).
Proof.
  unfold setSystemPrompt. by destruct (negb (isString prompt)).
Qed.

Lemma conversational_turn (l : list Message) input r :
  Nat.even (length l) = true /\ Forall (fun m => role m <> "system") l ->
  Nat.even (length (l ++ turn input r)) = true /\
  Forall (fun m => role m <> "system") (l ++ turn input r).
Proof.
  intros [He Hr]. split.
  - rewrite length_app. simpl.
    replace (length l + 2)%nat with (S (S (length l))) by lia. exact He.
  - apply Forall_app. split; [exact Hr|]. by repeat constructor.
Qed.

(** Every operation keeps the agent well formed and its history a
    conversation. *)
Lemma runOp_invariant op (st : Machine W) :
  wellFormed st /\ conversational st ->
  wellFormed (runOp boundProvider op st) /\
  conversational (runOp boundProvider op st).
Proof.
  intros [Hwf Hc]. destruct op as [input keepHistory| |prompt|];
    unfold runOp.
  - destruct (input_cases input) as [(s & -> & Hs)|Hbad];
      [|by rewrite (query_guard _ st input keepHistory Hbad)].
    destruct (query_accepted boundProvider st s keepHistory Hwf Hs)
      as (r & st' & -> & Hwf' & Hh & _).
    simpl. split; [exact Hwf'|]. unfold conversational. rewrite Hh.
    destruct ((status r =? 200) && keeps keepHistory); [|exact Hc].
    by apply conversational_turn.
  - destruct (clearHistory_empties st) as (st' & -> & Hwf' & Hh & _).
    simpl. split; [exact Hwf'|]. unfold conversational. rewrite Hh.
    by split.
  - destruct (setSystemPrompt_keeps_store st prompt) as [Hheap Href].
    assert (Hh : history (snd (setSystemPrompt prompt st)) = history st).
    { unfold history. by rewrite Hheap, Href. }
    split.
    + destruct Hwf as (elems & Ha & Hall). exists elems.
      rewrite Hheap, Href. by split.
    + unfold conversational. by rewrite Hh.
  - destruct (getHistory_fresh st Hwf)
      as (elems & st' & -> & _ & _ & _ & Hwf' & Hh & _).
    simpl. split; [exact Hwf'|]. unfold conversational. by rewrite Hh.
Qed.

Lemma runOps_invariant ops (st : Machine W) :
  wellFormed st /\ conversational st ->
  wellFormed (runOps boundProvider ops st) /\
  conversational (runOps boundProvider ops st).
Proof.
  revert st. induction ops as [|op ops IH]; intros st H; [exact H|].
  simpl. apply IH. by apply runOp_invariant.
Qed.

End InvariantFacts.

(** ** The registry *)

(** What a successful [createAgent] built. *)
Lemma createAgent_returned agentName providerName config this h agent this' h' :
  createAgent agentName providerName config (this, h)
  = (Return agent, (this', h')) ->
  exists name,
    agentName = JStr name /\ nonEmpty name = true /\
    agentFound this name = false /\ providerFound providerName = true /\
    agent = {| messageHistory := length h;
               systemPrompt := strOr (cfgSystemPrompt config) "";
               config := config; providerName := providerName |} /\
    this' = {| agents := <[name := agent]> (agents this) |} /\
    h' = h ++ [OArray []].
Proof.
  unfold createAgent.
  destruct agentName as [| |b|n|name|items|fields]; simpl;
    rewrite ?orb_true_r; try discriminate.
  destruct (nonEmpty name) eqn:Hn; simpl; [|discriminate].
  destruct (agentFound this name) eqn:Ha; [discriminate|].
  destruct (providerFound providerName) eqn:Hp; simpl; [|discriminate].
  intros [= <- <- <-]. exists name. by repeat split.
Qed.

Lemma created_wellFormed {W : Type} agentName providerName config this h
    agent this' h' (w : W) :
  createAgent agentName providerName config (this, h)
  = (Return agent, (this', h')) ->
  wellFormed (created agent h' w) /\ history (created agent h' w) = [].
Proof.
  intros H. apply createAgent_returned in H
    as (name & _ & _ & _ & _ & -> & _ & ->).
  assert (Hl : (h ++ [OArray []]) !! length h = Some (OArray []))
    by (by apply list_lookup_middle).
  split.
  - exists []. split; [exact Hl | constructor].
  - unfold history. simpl. by rewrite Hl.
Qed.

(** C6.  Whatever sequence of [query], [clearHistory], [setSystemPrompt]
    and [getHistory] is run on an agent, from the empty history it is
    created with and with whatever provider, the length of its history is
    even and no message of it has the role [system]. *)
Theorem history_invariant {W : Type}
    (boundProvider : outcome (string -> ProviderConfig -> M W ProviderResponse))
    agentName providerName config this h agent this' h' (w : W) ops :
  createAgent agentName providerName config (this, h)
  = (Return agent, (this', h')) ->
  Nat.even (length (history (runOps boundProvider ops (created agent h' w))))
  = true /\
  Forall (fun m => role m <> "system")
         (history (runOps boundProvider ops (created agent h' w))).
Proof.
  intros H. destruct (created_wellFormed _ _ _ _ _ _ _ _ w H) as [Hwf Hh].
  apply (runOps_invariant boundProvider ops (created agent h' w)).
  split; [exact Hwf|]. unfold conversational. rewrite Hh. by split.
Qed.

Lemma history_invariant_witness :
  createAgent (JStr "helper") "OpenAI" Script.keyed (newGASAgent, [])
  = (Return Script.helper,
     ({| agents := <["helper" := Script.helper]> ∅ |}, [OArray []])) /\
  Nat.even (length (history
     (runOps (bound (Script.runtime (Script.completion "hello")) "OpenAI")
             [OpQuery (JStr "hi") JUndefined; OpGetHistory;
              OpSetSystemPrompt (JStr "Be brief."); OpQuery (JStr "") JNull]
             (created Script.helper [OArray []] Script.offline)))) = true /\
  Forall (fun m => role m <> "system")
    (history
     (runOps (bound (Script.runtime (Script.completion "hello")) "OpenAI")
             [OpQuery (JStr "hi") JUndefined; OpGetHistory;
              OpSetSystemPrompt (JStr "Be brief."); OpQuery (JStr "") JNull]
             (created Script.helper [OArray []] Script.offline))).
Proof.
  split; [reflexivity|].
  apply (history_invariant
           (bound (Script.runtime (Script.completion "hello")) "OpenAI")
           (JStr "helper") "OpenAI" Script.keyed newGASAgent [] Script.helper
           {| agents := <["helper" := Script.helper]> ∅ |} [OArray []]
           Script.offline).
  reflexivity.
Defined.

(** C10, amended.  [getHistory] returns a new array that holds the
    message objects of the history.  Two calls in a row return equal
    sequences, and whatever the caller does to a returned array (adding,
    removing or replacing its entries) leaves the history of the agent and
    the result of a later [getHistory] unchanged.  The fields of the
    message objects are not covered: the array shares them with the
    history. *)
Theorem getHistory_copies {W : Type} (st : Machine W) :
  wellFormed st ->
  exists r st1,
    getHistory st = (Return r, st1) /\
    arrayMessages r st1 = history st /\
    history st1 = history st /\
    (exists r2 st2,
        getHistory st1 = (Return r2, st2) /\
        arrayMessages r2 st2 = arrayMessages r st1) /\
    (forall elems,
        history (callerWritesArray r elems st1) = history st /\
        exists r3 st3,
          getHistory (callerWritesArray r elems st1) = (Return r3, st3) /\
          arrayMessages r3 st3 = history st).
Proof.
  intros Hwf.
  destruct (getHistory_fresh st Hwf)
    as (held & st1 & Hg & Hself & Hheap & Ha & Hwf1 & Hh1 & Harr).
  exists (length (heap st)), st1.
  split; [exact Hg|]. split; [exact Harr|]. split; [exact Hh1|]. split.
  - destruct (getHistory_fresh st1 Hwf1)
      as (held2 & st2 & Hg2 & _ & _ & _ & _ & _ & Harr2).
    do 2 eexists. split; [exact Hg2|]. by rewrite Harr2, Hh1, Harr.
  - intros elems.
    set (st' := callerWritesArray (length (heap st)) elems st1).
    assert (Hr : heap st1 !! length (heap st) = Some (OArray held)).
    { rewrite Hheap. by apply list_lookup_middle. }
    assert (Hne : messageHistory (self st) <> length (heap st)).
    { apply lookup_lt_Some in Ha. lia. }
    assert (Ha1 : heap st1 !! messageHistory (self st) = Some (OArray held)).
    { rewrite Hheap. by apply lookup_app_l_Some. }
    assert (Ha' : heap st' !! messageHistory (self st') = Some (OArray held)).
    { unfold st', callerWritesArray. simpl. rewrite Hself.
      by rewrite list_lookup_insert_ne. }
    assert (Hh' : history st' = history st).
    { rewrite <- Hh1. unfold history at 1. rewrite Ha'.
      unfold st', callerWritesArray. simpl.
      rewrite (readMessages_array_write _ _ _ _ _ Hr).
      unfold history. by rewrite Hself, Ha1. }
    assert (Hwf' : wellFormed st').
    { exists held. split; [exact Ha'|].
      destruct Hwf1 as (held1 & Hl1 & Hall1).
      rewrite Hself, Ha1 in Hl1. injection Hl1 as <-.
      eapply Forall_impl; [exact Hall1|]. intros x Hx. simpl in Hx |- *.
      unfold st', callerWritesArray. simpl.
      by rewrite (readMessage_array_write _ _ _ _ _ Hr). }
    split; [exact Hh'|].
    destruct (getHistory_fresh st' Hwf')
      as (held3 & st3 & Hg3 & _ & _ & _ & _ & _ & Harr3).
    do 2 eexists. split; [exact Hg3|]. by rewrite Harr3.
Qed.

Lemma getHistory_copies_witness :
  wellFormed Script.talked /\
  history Script.talked
  = [{| role := "user"; content := JStr "hi" |};
     {| role := "assistant"; content := JStr "hello" |}] /\
  exists r st1,
    getHistory Script.talked = (Return r, st1) /\
    arrayMessages r st1 = history Script.talked /\
    history st1 = history Script.talked /\
    (exists r2 st2,
        getHistory st1 = (Return r2, st2) /\
        arrayMessages r2 st2 = arrayMessages r st1) /\
    (forall elems,
        history (callerWritesArray r elems st1) = history Script.talked /\
        exists r3 st3,
          getHistory (callerWritesArray r elems st1) = (Return r3, st3) /\
          arrayMessages r3 st3 = history Script.talked).
Proof.
  assert (Hwf : wellFormed Script.talked).
  { exists [1; 2]%nat. split; [reflexivity|].
    repeat constructor; by eexists. }
  split; [exact Hwf|]. split; [reflexivity|].
  apply (getHistory_copies Script.talked). exact Hwf.
Defined.

(** C10 as it is written fails for the elements: after one recorded
    turn, a caller that assigns the fields of the first message of the
    array [getHistory] returned changes the history of the agent, and
    what the next [getHistory] returns. *)
Lemma getHistory_elements_shared :
  history Script.talked
  = [{| role := "user"; content := JStr "hi" |};
     {| role := "assistant"; content := JStr "hello" |}] /\
  exists r st1 first rest,
    getHistory Script.talked = (Return r, st1) /\
    heap st1 !! r = Some (OArray (first :: rest)) /\
    history (callerWritesMessage first Script.forged st1)
    = [Script.forged; {| role := "assistant"; content := JStr "hello" |}] /\
    history (callerWritesMessage first Script.forged st1)
    <> history Script.talked /\
    exists r2 st2,
      getHistory (callerWritesMessage first Script.forged st1)
      = (Return r2, st2) /\
      arrayMessages r2 st2 <> arrayMessages r st1.
Proof.
  split; [reflexivity|].
  eexists _, _, _, _. split; [reflexivity|]. split; [reflexivity|].
  split; [reflexivity|]. split; [discriminate|].
  eexists _, _. split; [reflexivity|]. discriminate.
Qed.

(** C9, at inputs where the code departs from it.  In a new registry,
    where no agent is registered, [createAgent("constructor", "OpenAI",
    ..)] fails as a duplicate name, since the lookup in [this.agents] finds
    the member every object inherits; for the same reason
    [createAgent("helper", "toString", ..)] accepts a provider that is not
    one of the six. *)
Theorem createAgent_inherited_names :
  agents newGASAgent !! "constructor" = None /\
  createAgent (JStr "constructor") "OpenAI" Script.noConfig (newGASAgent, [])
  = (Throw "Agent 'constructor' already exists.", (newGASAgent, [])) /\
  assoc "toString" providers = None /\
  fst (createAgent (JStr "helper") "toString" Script.noConfig
                   (newGASAgent, []))
  = Return {| messageHistory := 0; systemPrompt := "";
              config := Script.noConfig; providerName := "toString" |}.
Proof. repeat split. Qed.

(** Apart from the inherited names, [createAgent] follows C9: the three
    failures in this order, and otherwise a new agent stored under its
    name. *)
Lemma createAgent_invalid_name agentName providerName config this h :
  (forall s, agentName = JStr s -> s = "") ->
  createAgent agentName providerName config (this, h)
  = (Throw "Agent name must be a non-empty string.", (this, h)).
Proof.
  intros H. unfold createAgent.
  destruct agentName as [| |b|n|s|items|fields]; simpl;
    rewrite ?orb_true_r; try reflexivity.
  by rewrite (H s eq_refl).
Qed.

Lemma createAgent_duplicate name providerName config this h agent :
  nonEmpty name = true -> agents this !! name = Some agent ->
  createAgent (JStr name) providerName config (this, h)
  = (Throw ("Agent '" +:+ name +:+ "' already exists."), (this, h)).
Proof.
  intros Hn Ha. unfold createAgent. simpl. rewrite Hn. simpl.
  assert (Hf : agentFound this name = true)
    by (unfold agentFound; by rewrite Ha).
  by rewrite Hf.
Qed.

Lemma createAgent_unknown_provider name providerName config this h :
  nonEmpty name = true -> agents this !! name = None ->
  inherited name = false ->
  assoc providerName providers = None -> inherited providerName = false ->
  createAgent (JStr name) providerName config (this, h)
  = (Throw ("Provider '" +:+ providerName +:+ "' not registered."), (this, h)).
Proof.
  intros Hn Ha Hi Hp Hip. unfold createAgent. simpl. rewrite Hn. simpl.
  assert (Hf : agentFound this name = false)
    by (unfold agentFound; by rewrite Ha, Hi).
  assert (Hpf : providerFound providerName = false)
    by (unfold providerFound; by rewrite Hp, Hip).
  by rewrite Hf, Hpf.
Qed.

Lemma createAgent_stores name kind config this h :
  nonEmpty name = true -> agents this !! name = None ->
  inherited name = false ->
  exists agent this',
    createAgent (JStr name) (kindName kind) config (this, h)
    = (Return agent, (this', h ++ [OArray []])) /\
    agents this' !! name = Some agent /\
    providerName agent = kindName kind /\
    forall other, other <> name -> agents this' !! other = agents this !! other.
Proof.
  intros Hn Ha Hi. unfold createAgent. simpl. rewrite Hn. simpl.
  assert (Hf : agentFound this name = false)
    by (unfold agentFound; by rewrite Ha, Hi).
  assert (Hp : providerFound (kindName kind) = true) by (by destruct kind).
  rewrite Hf, Hp. simpl. do 2 eexists. split; [reflexivity|]. simpl.
  split; [apply lookup_insert_eq|]. split; [reflexivity|].
  intros other Hne. by apply lookup_insert_ne.
Qed.

(** * Further properties *)

(** ** Providers: what comes back *)

Lemma getProp_default v key :
  nullish v = false ->
  getProp v key = Return (default JUndefined (field key v)).
Proof. by destruct v. Qed.

Lemma truthy_not_nullish v : truthy v = true -> nullish v = false.
Proof. by destruct v. Qed.

Lemma field_not_nullish key v x : field key v = Some x -> nullish v = false.
Proof. by destruct v. Qed.

Lemma errorFalsy_read result :
  nullish result = false -> errorFalsy result = true ->
  exists err, getProp result "error" = Return err /\ truthy err = false.
Proof.
  intros Hn He. rewrite (getProp_default _ _ Hn). eexists. split; [reflexivity|].
  unfold errorFalsy in He. by apply negb_true_iff in He.
Qed.

Lemma generatedText_read_chat result text :
  match field "choices" result with
  | Some (JArr (first :: _)) =>
    match field "message" first with
    | Some message => field "content" message
    | None => None
    end
  | _ => None
  end = Some text ->
  choicesContent result = Return text.
Proof.
  unfold choicesContent.
  destruct (field "choices" result) as [[| | | | |[|first rest]|]|] eqn:Hc;
    try discriminate.
  rewrite (getProp_field _ _ _ Hc). simpl.
  destruct (field "message" first) as [message|] eqn:Hm; [|discriminate].
  rewrite (field_not_nullish _ _ _ Hm), (getProp_field _ _ _ Hm). simpl.
  intros Ht. rewrite (field_not_nullish _ _ _ Ht). by apply getProp_field.
Qed.

Lemma generatedText_read_google result text :
  generatedText GoogleAI result = Some text ->
  candidatesText result = Return text.
Proof.
  unfold generatedText, candidatesText.
  destruct (field "candidates" result) as [[| | | | |[|first rest]|]|] eqn:Hc;
    try discriminate.
  rewrite (getProp_field _ _ _ Hc). simpl.
  destruct (field "content" first) as [content|] eqn:Hm; [|discriminate].
  rewrite (field_not_nullish _ _ _ Hm), (getProp_field _ _ _ Hm). simpl.
  destruct (field "parts" content) as [[| | | | |[|part more]|]|] eqn:Hp;
    try discriminate.
  rewrite (field_not_nullish _ _ _ Hp), (getProp_field _ _ _ Hp). simpl.
  intros Ht. rewrite (field_not_nullish _ _ _ Ht). by apply getProp_field.
Qed.

Ltac run_exchange :=
  unfold exchange, tryCatch, chatExchange, generateContentExchange, bind,
    UrlFetchApp_fetch, lift, ret.

(** X1.  Once the lookup of the script property has returned (a string
    or [null]; the lookup stands before the [try], and here it always
    returns), nothing a provider does throws: whatever the transport and
    the parser do and whatever the answer holds, [generateResponse]
    returns a response whose status is 200, 400 or 500.  A 400 leaves the
    world untouched, a 200 carries a non-empty text and no error, and at
    most one request is sent. *)
Theorem generateResponse_status {W : Type} (rt : Runtime W) kind input config
    (n : Net W) :
  exists r n',
    generateResponse rt kind input config n = (Return r, n') /\
    (status r = 200 \/ status r = 400 \/ status r = 500) /\
    (status r = 400 -> n' = n) /\
    (status r = 200 ->
     error r = None /\ exists v, response r = Some v /\ truthy v = true) /\
    (sent n' = sent n \/ exists req, sent n' = sent n ++ [req]).
Proof.
  rewrite generateResponse_steps.
  destruct (credential rt kind config (outside n)) as [key|].
  - destruct (endpointGiven kind config).
    + assert (Herr : forall r : ProviderResponse,
                status r = 200 ->
                fst (tryCatch (exchange rt kind (options kind input config key))
                       (fun message =>
                          ret (failure 500 (catchPrefix kind +:+ message))) n)
                = Return r -> error r = None).
      { intros r Hs. destruct kind; run_exchange;
          destruct (fetch rt _ (outside n)) as [[body|e] w]; simpl;
          try (intros [= <-]; discriminate);
          destruct (JSON_parse rt body) as [result|e]; simpl;
          try (intros [= <-]; discriminate);
          destruct (getProp result "error") as [err|e]; simpl;
          try (intros [= <-]; discriminate);
          destruct (truthy err);
          try (destruct (getProp err "message"); simpl;
               intros [= <-]; discriminate);
          try (destruct (choicesContent result); simpl;
               intros [= <-]; try discriminate; reflexivity);
          destruct (candidatesText result); simpl;
          intros [= <-]; try discriminate; reflexivity. }
      destruct (exchange_answered rt kind (options kind input config key) n)
        as (r & Hx & Ha).
      rewrite Hx in Herr |- *. exists r. eexists. split; [reflexivity|].
      destruct Ha as [[Hs Hr]|[Hs Hv]].
      * split; [by right; right|]. split; [rewrite Hs; discriminate|].
        split; [rewrite Hs; discriminate|]. right. by eexists.
      * split; [by left|]. split; [rewrite Hs; discriminate|].
        split; [intros _; split; [by apply Herr | exact Hv]|].
        right. by eexists.
    + do 2 eexists. split; [reflexivity|]. split; [by right; left|].
      split; [done|]. split; [discriminate|]. by left.
  - do 2 eexists. split; [reflexivity|]. split; [by right; left|].
    split; [done|]. split; [discriminate|]. by left.
Qed.

(** X2.  A provider sends a request exactly when a key is found (and,
    for the custom endpoint, a base URL is configured); it is then the one
    request built from the input, the configuration and that key. *)
Theorem generateResponse_requests {W : Type} (rt : Runtime W) kind input
    config (n : Net W) :
  sent (snd (generateResponse rt kind input config n))
  = match credential rt kind config (outside n) with
    | Some key =>
      if endpointGiven kind config
      then sent n ++ [options kind input config key]
      else sent n
    | None => sent n
    end.
Proof.
  destruct (credential rt kind config (outside n)) as [key|] eqn:Hc.
  - destruct (endpointGiven kind config) eqn:He.
    + by apply generateResponse_sent.
    + by rewrite generateResponse_steps, Hc, He.
  - by rewrite generateResponse_steps, Hc.
Qed.

(** X3.  When the transport throws, the provider answers status 500
    with the error ["<Class>Provider error: <message>"], where the class
    is the one of the provider. *)
Theorem transport_failure_reported {W : Type} (rt : Runtime W) kind input
    config (n : Net W) key e w :
  credential rt kind config (outside n) = Some key ->
  endpointGiven kind config = true ->
  fetch rt (options kind input config key) (outside n) = (Throw e, w) ->
  generateResponse rt kind input config n
  = (Return (failure 500 (kindName kind +:+ "Provider error: " +:+ e)),
     {| outside := w; sent := sent n ++ [options kind input config key] |}).
Proof.
  intros Hc He Hf. rewrite generateResponse_steps, Hc, He.
  destruct kind; run_exchange; by rewrite Hf.
Qed.

Lemma transport_failure_reported_witness :
  credential Scene.down GoogleAI Script.keyed (outside Script.offline)
  = Some "sk-test" /\
  endpointGiven GoogleAI Script.keyed = true /\
  fetch Scene.down (options GoogleAI "hi" Script.keyed "sk-test")
        (outside Script.offline) = (Throw "Address unavailable", tt) /\
  fst (generateResponse Scene.down GoogleAI "hi" Script.keyed Script.offline)
  = Return (failure 500 "GoogleAIProvider error: Address unavailable").
Proof.
  repeat (split; [reflexivity|]).
  rewrite (transport_failure_reported Scene.down GoogleAI "hi" Script.keyed
             Script.offline "sk-test" "Address unavailable" tt);
    reflexivity.
Defined.

(** X4.  When the body of the answer does not parse, the provider
    answers status 500 with the error of the parser behind the same
    prefix; the request has been sent. *)
Theorem unparsable_answer_reported {W : Type} (rt : Runtime W) kind input
    config (n : Net W) key body e w :
  credential rt kind config (outside n) = Some key ->
  endpointGiven kind config = true ->
  fetch rt (options kind input config key) (outside n) = (Return body, w) ->
  JSON_parse rt body = Throw e ->
  generateResponse rt kind input config n
  = (Return (failure 500 (kindName kind +:+ "Provider error: " +:+ e)),
     {| outside := w; sent := sent n ++ [options kind input config key] |}).
Proof.
  intros Hc He Hf Hp. rewrite generateResponse_steps, Hc, He.
  destruct kind; run_exchange; rewrite Hf; simpl; by rewrite Hp.
Qed.

Lemma unparsable_answer_reported_witness :
  credential Scene.garbled Groq Script.keyed (outside Script.offline)
  = Some "sk-test" /\
  endpointGiven Groq Script.keyed = true /\
  fetch Scene.garbled (options Groq "hi" Script.keyed "sk-test")
        (outside Script.offline) = (Return "<html>", tt) /\
  JSON_parse Scene.garbled "<html>"
  = Throw "Unexpected token < in JSON at position 0" /\
  fst (generateResponse Scene.garbled Groq "hi" Script.keyed Script.offline)
  = Return (failure 500
      "GroqProvider error: Unexpected token < in JSON at position 0").
Proof.
  repeat (split; [reflexivity|]).
  rewrite (unparsable_answer_reported Scene.garbled Groq "hi" Script.keyed
             Script.offline "sk-test" "<html>"
             "Unexpected token < in JSON at position 0" tt);
    reflexivity.
Defined.

(** X5.  When the parsed answer has a truthy [error] member, the
    provider answers status 500 with ["<name> API error: "] (["API error: "]
    for the custom endpoint) followed by the [message] of that member,
    rendered as a string; a member without [message] renders
    [undefined]. *)
Theorem upstream_error_reported {W : Type} (rt : Runtime W) kind input config
    (n : Net W) key body w result err :
  credential rt kind config (outside n) = Some key ->
  endpointGiven kind config = true ->
  fetch rt (options kind input config key) (outside n) = (Return body, w) ->
  JSON_parse rt body = Return result ->
  field "error" result = Some err -> truthy err = true ->
  generateResponse rt kind input config n
  = (Return (failure 500
       (apiErrorPrefix kind
        +:+ ToString rt (default JUndefined (field "message" err)))),
     {| outside := w; sent := sent n ++ [options kind input config key] |}).
Proof.
  intros Hc He Hf Hp Herr Ht. rewrite generateResponse_steps, Hc, He.
  pose proof (getProp_field _ _ _ Herr) as Hg.
  pose proof (getProp_default err "message" (truthy_not_nullish _ Ht)) as Hm.
  destruct kind; run_exchange; rewrite Hf; simpl; rewrite Hp; simpl;
    rewrite Hg; simpl; rewrite Ht, Hm; reflexivity.
Qed.

Lemma upstream_error_reported_witness :
  credential (Script.runtime Scene.refusal) DeepSeek Script.keyed
             (outside Script.offline) = Some "sk-test" /\
  endpointGiven DeepSeek Script.keyed = true /\
  fetch (Script.runtime Scene.refusal)
        (options DeepSeek "hi" Script.keyed "sk-test") (outside Script.offline)
  = (Return "body", tt) /\
  JSON_parse (Script.runtime Scene.refusal) "body" = Return Scene.refusal /\
  field "error" Scene.refusal
  = Some (JObj [("message", JStr "Rate limit reached")]) /\
  truthy (JObj [("message", JStr "Rate limit reached")]) = true /\
  fst (generateResponse (Script.runtime Scene.refusal) DeepSeek "hi"
                        Script.keyed Script.offline)
  = Return (failure 500 "DeepSeek API error: Rate limit reached").
Proof.
  repeat (split; [reflexivity|]).
  rewrite (upstream_error_reported (Script.runtime Scene.refusal) DeepSeek
             "hi" Script.keyed Script.offline "sk-test" "body" tt
             Scene.refusal (JObj [("message", JStr "Rate limit reached")]));
    reflexivity.
Defined.

(** X6.  When the parsed answer has no truthy [error] and carries a
    truthy generated text at the end of its path, the provider answers
    status 200 with exactly that text. *)
Theorem generated_text_returned {W : Type} (rt : Runtime W) kind input config
    (n : Net W) key body w result text :
  credential rt kind config (outside n) = Some key ->
  endpointGiven kind config = true ->
  fetch rt (options kind input config key) (outside n) = (Return body, w) ->
  JSON_parse rt body = Return result ->
  errorFalsy result = true ->
  generatedText kind result = Some text -> truthy text = true ->
  generateResponse rt kind input config n
  = (Return (success text),
     {| outside := w; sent := sent n ++ [options kind input config key] |}).
Proof.
  intros Hc He Hf Hp Herr Hg Ht. rewrite generateResponse_steps, Hc, He.
  assert (Hn : nullish result = false).
  { destruct kind, result; try reflexivity; discriminate. }
  destruct (errorFalsy_read result Hn Herr) as (err & Hge & Hfe).
  assert (Hor : forall fb, jsOr text (JStr fb) = text)
    by (intros fb; unfold jsOr; by rewrite Ht).
  destruct kind;
    try (apply generatedText_read_chat in Hg);
    try (apply generatedText_read_google in Hg);
    run_exchange; rewrite Hf; simpl; rewrite Hp; simpl;
    rewrite Hge; simpl; rewrite Hfe, Hg; simpl; by rewrite Hor.
Qed.

Lemma generated_text_returned_witness :
  credential (Script.runtime (Scene.candidate "bonjour")) GoogleAI
             Script.keyed (outside Script.offline) = Some "sk-test" /\
  endpointGiven GoogleAI Script.keyed = true /\
  fetch (Script.runtime (Scene.candidate "bonjour"))
        (options GoogleAI "hi" Script.keyed "sk-test") (outside Script.offline)
  = (Return "body", tt) /\
  JSON_parse (Script.runtime (Scene.candidate "bonjour")) "body"
  = Return (Scene.candidate "bonjour") /\
  errorFalsy (Scene.candidate "bonjour") = true /\
  generatedText GoogleAI (Scene.candidate "bonjour") = Some (JStr "bonjour") /\
  truthy (JStr "bonjour") = true /\
  fst (generateResponse (Script.runtime (Scene.candidate "bonjour")) GoogleAI
                        "hi" Script.keyed Script.offline)
  = Return (success (JStr "bonjour")).
Proof.
  repeat (split; [reflexivity|]).
  rewrite (generated_text_returned (Script.runtime (Scene.candidate "bonjour"))
             GoogleAI "hi" Script.keyed Script.offline "sk-test" "body" tt
             (Scene.candidate "bonjour") (JStr "bonjour"));
    reflexivity.
Defined.

(** ** Providers: what goes out *)

(** X7.  The provider for custom endpoints, once it has a key, requires
    [config.baseURL]: when that is absent or empty it answers status 400
    with ["Base URL is required for OpenAILike provider."] and sends
    nothing. *)
Theorem missing_endpoint_rejected {W : Type} (rt : Runtime W) input config
    (n : Net W) key :
  credential rt OpenAILike config (outside n) = Some key ->
  (forall base, baseURL config = Some base -> base = "") ->
  generateResponse rt OpenAILike input config n
  = (Return (failure 400 "Base URL is required for OpenAILike provider."), n).
Proof.
  intros Hc Hb. rewrite generateResponse_steps, Hc.
  assert (He : endpointGiven OpenAILike config = false); [|by rewrite He].
  unfold endpointGiven, keyOf.
  destruct (baseURL config) as [base|]; [|reflexivity].
  by rewrite (Hb base eq_refl).
Qed.

Lemma missing_endpoint_rejected_witness :
  credential (Script.runtime JNull) OpenAILike Scene.homeless
             (outside Script.offline) = Some "sk-test" /\
  (forall base, baseURL Scene.homeless = Some base -> base = "") /\
  generateResponse (Script.runtime JNull) OpenAILike "hi" Scene.homeless
                   Script.offline
  = (Return (failure 400 "Base URL is required for OpenAILike provider."),
     Script.offline).
Proof.
  split; [reflexivity|]. split; [discriminate|].
  apply (missing_endpoint_rejected (Script.runtime JNull) "hi" Scene.homeless
                                   Script.offline "sk-test");
    [reflexivity | discriminate].
Defined.

(** X8.  The key of the request: a non-empty [config.apiKey] is the key
    that is sent, whatever the script properties hold; when
    [config.apiKey] is absent or empty, the script property of the
    provider is sent instead.  Google AI gets the key in [x-goog-api-key],
    the other providers as a bearer token. *)
Theorem key_reaches_the_request {W : Type} (rt : Runtime W) kind input config
    (n : Net W) key :
  nonEmpty key = true ->
  apiKey config = Some key \/
  ((forall k, apiKey config = Some k -> k = "") /\
   getProperty rt (keyName kind) (outside n) = Some key) ->
  endpointGiven kind config = true ->
  exists req,
    sent (snd (generateResponse rt kind input config n)) = sent n ++ [req] /\
    authHeader kind key ∈ headers req.
Proof.
  intros Hk Hsrc He.
  assert (Hc : credential rt kind config (outside n) = Some key).
  { unfold credential, keyOf. destruct Hsrc as [->|[Hcfg ->]].
    - by rewrite Hk.
    - destruct (apiKey config) as [k|]; [|by rewrite Hk].
      rewrite (Hcfg k eq_refl). simpl. by rewrite Hk. }
  exists (options kind input config key).
  split; [by apply generateResponse_sent|].
  destruct kind; simpl; repeat constructor.
Qed.

Lemma key_reaches_the_request_witness :
  nonEmpty "gsk-stored" = true /\
  (apiKey Scene.unkeyed = Some "gsk-stored" \/
   ((forall k, apiKey Scene.unkeyed = Some k -> k = "") /\
    getProperty Scene.vault (keyName Groq) (outside Script.offline)
    = Some "gsk-stored")) /\
  endpointGiven Groq Scene.unkeyed = true /\
  exists req,
    sent (snd (generateResponse Scene.vault Groq "hi" Scene.unkeyed
                                Script.offline)) = [] ++ [req] /\
    ("Authorization", "Bearer gsk-stored") ∈ headers req.
Proof.
  assert (H : forall k, apiKey Scene.unkeyed = Some k -> k = "").
  { intros k Hk. injection Hk as <-. reflexivity. }
  split; [reflexivity|]. split; [right; split; [exact H | reflexivity]|].
  split; [reflexivity|].
  apply (key_reaches_the_request Scene.vault Groq "hi" Scene.unkeyed
                                 Script.offline "gsk-stored");
    [reflexivity | right; split; [exact H | reflexivity] | reflexivity].
Defined.

(** X9.  The sampling settings of the request, for every provider: an
    absent [temperature] goes out as 0.7 and an absent [max_tokens] as
    100; a value that is present and truthy goes out as it is. *)
Theorem settings_reach_the_request {W : Type} (rt : Runtime W) kind input
    config (n : Net W) key :
  credential rt kind config (outside n) = Some key ->
  endpointGiven kind config = true ->
  exists req,
    sent (snd (generateResponse rt kind input config n)) = sent n ++ [req] /\
    (temperature config = None ->
     payloadTemperature (payload req) = Num (7 # 10)) /\
    (max_tokens config = None ->
     payloadMaxTokens (payload req) = Num (100 # 1)) /\
    (forall t, temperature config = Some t -> numberTruthy t = true ->
               payloadTemperature (payload req) = t) /\
    (forall m, max_tokens config = Some m -> numberTruthy m = true ->
               payloadMaxTokens (payload req) = m).
Proof.
  intros Hc He. exists (options kind input config key).
  split; [by apply generateResponse_sent|].
  repeat split.
  - intros H. destruct kind; simpl; by rewrite H.
  - intros H. destruct kind; simpl; by rewrite H.
  - intros t H Ht. destruct kind; simpl; rewrite H; simpl; by rewrite Ht.
  - intros m H Hm. destruct kind; simpl; rewrite H; simpl; by rewrite Hm.
Qed.

Lemma settings_reach_the_request_witness :
  credential Scene.vault Groq Scene.unkeyed (outside Script.offline)
  = Some "gsk-stored" /\
  endpointGiven Groq Scene.unkeyed = true /\
  exists req,
    sent (snd (generateResponse Scene.vault Groq "hi" Scene.unkeyed
                                Script.offline)) = [] ++ [req] /\
    payloadTemperature (payload req) = Num (2 # 10) /\
    payloadMaxTokens (payload req) = Num (50 # 1).
Proof.
  split; [reflexivity|]. split; [reflexivity|].
  destruct (settings_reach_the_request Scene.vault Groq "hi" Scene.unkeyed
              Script.offline "gsk-stored" eq_refl eq_refl)
    as (req & Hs & _ & _ & Ht & Hm).
  exists req. split; [exact Hs|]. split.
  - apply Ht; reflexivity.
  - apply Hm; reflexivity.
Defined.

(** ** The agent: what a query hands over *)

Lemma bound_kind {W : Type} (rt : Runtime W) kind :
  bound rt (kindName kind) = Return (generateResponse rt kind).
Proof. by destruct kind. Qed.

Lemma assembled_messages {W : Type} (st : Machine W) s :
  assembled st s
  = withMessages (config (self st))
      (systemMessages (systemPrompt (self st)) ++ history st
       ++ [userMessage s]).
Proof. reflexivity. Qed.

(** X10.  [query], given a non-empty string, calls the provider exactly
    once, with that string and with the configuration of the agent in
    which [messages] is the system message (when the prompt is not empty),
    then the history, then the new user message; the response of the
    provider is returned as it is. *)
Theorem query_delegates_once {W : Type}
    (generate : string -> ProviderConfig -> M W ProviderResponse)
    (st : Machine W) s keepHistory answer w :
  wellFormed st -> nonEmpty s = true ->
  generate s (assembled st s) (world st) = (Return answer, w) ->
  exists st',
    query (Return generate) (JStr s) keepHistory st = (Return answer, st') /\
    world st' = w /\
    delegated st'
    = delegated st
      ++ [(s, withMessages (config (self st))
                (systemMessages (systemPrompt (self st)) ++ history st
                 ++ [userMessage s]))].
Proof.
  intros Hwf Hs Hg.
  destruct (query_accepted (Return generate) st s keepHistory Hwf Hs)
    as (r & st' & Hq & _ & _ & Hcase).
  rewrite Hg in Hcase. destruct Hcase as (-> & Hw & Hd).
  exists st'. by repeat split.
Qed.

Lemma query_delegates_once_witness :
  wellFormed Scene.guided /\ nonEmpty "and then?" = true /\
  generateResponse (Script.runtime (Script.completion "hello")) OpenAILike
    "and then?" (assembled Scene.guided "and then?") (world Scene.guided)
  = (Return (success (JStr "hello")),
     snd (generateResponse (Script.runtime (Script.completion "hello"))
            OpenAILike "and then?" (assembled Scene.guided "and then?")
            (world Scene.guided))) /\
  exists st',
    query (Return (generateResponse
                     (Script.runtime (Script.completion "hello")) OpenAILike))
          (JStr "and then?") JUndefined Scene.guided
    = (Return (success (JStr "hello")), st') /\
    snd <$> last (delegated st')
    = Some (withMessages Script.keyed
              [{| role := "system"; content := JStr "Be brief." |};
               {| role := "user"; content := JStr "hi" |};
               {| role := "assistant"; content := JStr "hello" |};
               {| role := "user"; content := JStr "and then?" |}]).
Proof.
  assert (Hwf : wellFormed Scene.guided).
  { exists [1; 2]%nat. split; [reflexivity|]. repeat constructor; by eexists. }
  split; [exact Hwf|]. split; [reflexivity|]. split; [reflexivity|].
  destruct (query_delegates_once
              (generateResponse (Script.runtime (Script.completion "hello"))
                                OpenAILike)
              Scene.guided "and then?" JUndefined (success (JStr "hello"))
              _ Hwf eq_refl eq_refl) as (st' & Hq & _ & Hd).
  exists st'. split; [exact Hq|]. rewrite Hd. reflexivity.
Defined.

Lemma credential_assembled {W : Type} (rt : Runtime W) kind
    (st : Machine (Net W)) s w :
  credential rt kind (assembled st s) w
  = credential rt kind (config (self st)) w.
Proof. reflexivity. Qed.

Lemma endpointGiven_assembled {W : Type} kind (st : Machine W) s :
  endpointGiven kind (assembled st s) = endpointGiven kind (config (self st)).
Proof. by destruct kind. Qed.

(** The request a query of a registered agent sends. *)
Lemma agentQuery_request {W : Type} (rt : Runtime W) kind
    (st : Machine (Net W)) s keepHistory key :
  wellFormed st -> providerName (self st) = kindName kind ->
  nonEmpty s = true ->
  credential rt kind (config (self st)) (outside (world st)) = Some key ->
  endpointGiven kind (config (self st)) = true ->
  sent (world (snd (agentQuery rt (JStr s) keepHistory st)))
  = sent (world st) ++ [options kind s (assembled st s) key].
Proof.
  intros Hwf Hpn Hs Hc He. unfold agentQuery. rewrite Hpn, bound_kind.
  destruct (query_accepted (Return (generateResponse rt kind)) st s keepHistory
              Hwf Hs) as (r & st' & Hq & _ & _ & Hcase).
  rewrite Hq. simpl.
  rewrite <- (generateResponse_sent rt kind s (assembled st s) (world st) key)
    by (by rewrite ?credential_assembled, ?endpointGiven_assembled).
  destruct (generateResponse rt kind s (assembled st s) (world st))
    as [[answer|e] w]; simpl.
  - destruct Hcase as (_ & -> & _). reflexivity.
  - destruct Hcase as (_ & ->). reflexivity.
Qed.

(** X11.  A query of an agent bound to the provider for custom
    endpoints sends the whole conversation: the system message (when the
    prompt is not empty), the history, and the new user message, in this
    order. *)
Theorem query_sends_the_conversation {W : Type} (rt : Runtime W)
    (st : Machine (Net W)) s keepHistory key :
  wellFormed st -> providerName (self st) = "OpenAILike" ->
  nonEmpty s = true ->
  credential rt OpenAILike (config (self st)) (outside (world st)) = Some key ->
  endpointGiven OpenAILike (config (self st)) = true ->
  exists req,
    sent (world (snd (agentQuery rt (JStr s) keepHistory st)))
    = sent (world st) ++ [req] /\
    payloadMessages (payload req)
    = Some (systemMessages (systemPrompt (self st)) ++ history st
            ++ [userMessage s]).
Proof.
  intros Hwf Hpn Hs Hc He. eexists. split.
  - by apply (agentQuery_request rt OpenAILike).
  - reflexivity.
Qed.

Lemma guided_wellFormed : wellFormed Scene.guided.
Proof.
  exists [1; 2]%nat. split; [reflexivity|]. repeat constructor; by eexists.
Qed.

Lemma query_sends_the_conversation_witness :
  wellFormed Scene.guided /\
  providerName (self Scene.guided) = "OpenAILike" /\
  nonEmpty "and then?" = true /\
  credential (Script.runtime (Script.completion "hello")) OpenAILike
             (config (self Scene.guided)) (outside (world Scene.guided))
  = Some "sk-test" /\
  endpointGiven OpenAILike (config (self Scene.guided)) = true /\
  exists req,
    sent (world (snd (agentQuery (Script.runtime (Script.completion "hello"))
                                 (JStr "and then?") JUndefined Scene.guided)))
    = sent (world Scene.guided) ++ [req] /\
    payloadMessages (payload req)
    = Some [{| role := "system"; content := JStr "Be brief." |};
            {| role := "user"; content := JStr "hi" |};
            {| role := "assistant"; content := JStr "hello" |};
            {| role := "user"; content := JStr "and then?" |}].
Proof.
  split; [exact guided_wellFormed|]. do 4 (split; [reflexivity|]).
  apply (query_sends_the_conversation
           (Script.runtime (Script.completion "hello")) Scene.guided
           "and then?" JUndefined "sk-test");
    [exact guided_wellFormed | reflexivity | reflexivity | reflexivity
    | reflexivity].
Defined.

(** X12.  A query of an agent bound to any of the other five providers
    sends the new input alone: neither the system prompt nor the history
    of the agent is part of the request. *)
Theorem query_sends_the_input_alone {W : Type} (rt : Runtime W) kind
    (st : Machine (Net W)) s keepHistory key :
  kind <> OpenAILike ->
  wellFormed st -> providerName (self st) = kindName kind ->
  nonEmpty s = true ->
  credential rt kind (config (self st)) (outside (world st)) = Some key ->
  exists req,
    sent (world (snd (agentQuery rt (JStr s) keepHistory st)))
    = sent (world st) ++ [req] /\
    match payload req with
    | ChatPayload _ ms _ _ => ms = [{| role := "user"; content := JStr s |}]
    | GeneratePayload text _ _ => text = s
    end.
Proof.
  intros Hk Hwf Hpn Hs Hc. eexists. split.
  - apply (agentQuery_request rt kind); try done. by destruct kind.
  - by destruct kind.
Qed.

Lemma plain_wellFormed : wellFormed Scene.plain.
Proof.
  exists [1; 2]%nat. split; [reflexivity|]. repeat constructor; by eexists.
Qed.

Lemma query_sends_the_input_alone_witness :
  OpenAI <> OpenAILike /\ wellFormed Scene.plain /\
  providerName (self Scene.plain) = kindName OpenAI /\
  nonEmpty "and then?" = true /\
  credential (Script.runtime (Script.completion "hello")) OpenAI
             (config (self Scene.plain)) (outside (world Scene.plain))
  = Some "sk-test" /\
  history Scene.plain
  = [{| role := "user"; content := JStr "hi" |};
     {| role := "assistant"; content := JStr "hello" |}] /\
  exists req,
    sent (world (snd (agentQuery (Script.runtime (Script.completion "hello"))
                                 (JStr "and then?") JUndefined Scene.plain)))
    = sent (world Scene.plain) ++ [req] /\
    match payload req with
    | ChatPayload _ ms _ _ =>
      ms = [{| role := "user"; content := JStr "and then?" |}]
    | GeneratePayload text _ _ => text = "and then?"
    end.
Proof.
  split; [discriminate|]. split; [exact plain_wellFormed|].
  do 4 (split; [reflexivity|]).
  apply (query_sends_the_input_alone
           (Script.runtime (Script.completion "hello")) OpenAI Scene.plain
           "and then?" JUndefined "sk-test");
    [discriminate | exact plain_wellFormed | reflexivity | reflexivity
    | reflexivity].
Defined.

(** X13.  An agent whose provider name is not one of the six (such a
    name passes [createAgent] when it is inherited by every object)
    answers every non-empty string with status 500 and the error prefix
    of [query]; nothing is sent and nothing is recorded. *)
Theorem unregistered_provider_fails {W : Type} (rt : Runtime W)
    (st : Machine (Net W)) s keepHistory :
  assoc (providerName (self st)) providers = None ->
  wellFormed st -> nonEmpty s = true ->
  exists cause,
    agentQuery rt (JStr s) keepHistory st
    = (Return (failure 500 ("Error during query execution: " +:+ cause)), st).
Proof.
  intros Hp Hwf Hs. unfold agentQuery.
  destruct (query_accepted (bound rt (providerName (self st))) st s keepHistory
              Hwf Hs) as (r & st' & Hq & _ & _ & Hcase).
  unfold bound in Hcase, Hq |- *. rewrite Hp in Hcase, Hq |- *.
  destruct (inherited (providerName (self st)));
    destruct Hcase as [-> ->]; eexists; exact Hq.
Qed.

Lemma unregistered_provider_fails_witness :
  assoc (providerName (self Scene.stray)) providers = None /\
  wellFormed Scene.stray /\ nonEmpty "hi" = true /\
  exists cause,
    agentQuery (Script.runtime (Script.completion "hello")) (JStr "hi")
               JUndefined Scene.stray
    = (Return (failure 500 ("Error during query execution: " +:+ cause)),
       Scene.stray).
Proof.
  assert (Hwf : wellFormed Scene.stray)
    by (exists []; split; [reflexivity | constructor]).
  split; [reflexivity|]. split; [exact Hwf|]. split; [reflexivity|].
  apply (unregistered_provider_fails
           (Script.runtime (Script.completion "hello")) Scene.stray "hi"
           JUndefined); [reflexivity | exact Hwf | reflexivity].
Defined.

(** ** The agent: what its operations leave alone *)

Lemma stable_refl a h : stable a h a h.
Proof. repeat split; [done | done | by left]. Qed.

Lemma stable_append a h ext : stable a h a (h ++ ext).
Proof.
  repeat split; [| |by left].
  - intros x m Hx. rewrite readMessage_app; [done | by eexists].
  - intros r l _ Hr. by apply lookup_app_l_Some.
Qed.

Lemma pushHistory_stable {W : Type} (st : Machine W) m1 m2 :
  stable (self st) (heap st)
         (self (snd (pushHistory m1 m2 st))) (heap (snd (pushHistory m1 m2 st))).
Proof.
  unfold pushHistory, alloc.
  set (a := messageHistory (self st)). set (h := heap st).
  assert (Hh : (h ++ [OMessage m1]) ++ [OMessage m2]
               = h ++ [OMessage m1; OMessage m2]) by (by rewrite <- app_assoc).
  destruct (((h ++ [OMessage m1]) ++ [OMessage m2]) !! a)
    as [[m|elems]|] eqn:Ha; simpl; try (rewrite Hh; apply stable_append).
  repeat split; [| |by left].
  - intros x m Hx. rewrite (readMessage_array_write _ _ _ _ _ Ha), Hh.
    rewrite readMessage_app; [done | by eexists].
  - intros r l Hr Hl. rewrite list_lookup_insert_ne by done.
    rewrite Hh. by apply lookup_app_l_Some.
Qed.

Lemma query_stable {W : Type}
    (boundProvider : outcome (string -> ProviderConfig -> M W ProviderResponse))
    (st : Machine W) input keepHistory :
  stable (self st) (heap st)
         (self (snd (query boundProvider input keepHistory st)))
         (heap (snd (query boundProvider input keepHistory st))).
Proof.
  assert (H : forall out st',
             query boundProvider input keepHistory st = (out, st') ->
             stable (self st) (heap st) (self st') (heap st')).
  { intros out st'. unfold query.
    destruct (negb (truthy input) || negb (isString input));
      [intros [= _ <-]; apply stable_refl|].
    unfold tryCatch, queryBody, bind at 1, gets at 1.
    unfold bind at 1, historyElems.
    destruct (heap st !! messageHistory (self st)) as [[m|elems]|];
      try (intros [= _ <-]; apply stable_refl).
    unfold bind at 1, gets at 1. unfold bind at 1, gets at 1.
    unfold bind at 1, delegate.
    destruct boundProvider as [generate|e];
      [|intros [= _ <-]; apply stable_refl].
    destruct (generate _ _ (world st)) as [[answer|e] w];
      [|intros [= _ <-]; apply stable_refl].
    destruct ((status answer =? 200) && keeps keepHistory);
      [|intros [= _ <-]; apply stable_refl].
    unfold bind, ret.
    match goal with
    | |- context [pushHistory ?m1 ?m2 ?s] =>
      pose proof (pushHistory_stable s m1 m2) as Hp;
      destruct (pushHistory m1 m2 s) as [[[]|e] st2];
      intros [= _ <-]; exact Hp
    end. }
  destruct (query boundProvider input keepHistory st) as [out st'] eqn:Hq.
  by apply (H out).
Qed.

Lemma runOp_stable {W : Type}
    (boundProvider : outcome (string -> ProviderConfig -> M W ProviderResponse))
    op (st : Machine W) :
  stable (self st) (heap st)
         (self (runOp boundProvider op st)) (heap (runOp boundProvider op st)).
Proof.
  destruct op as [input keepHistory| |prompt|]; unfold runOp.
  - apply query_stable.
  - unfold clearHistory, alloc. simpl. repeat split.
    + intros x m Hx. rewrite readMessage_app; [done | by eexists].
    + intros r l _ Hr. by apply lookup_app_l_Some.
    + by right.
  - unfold setSystemPrompt. destruct (negb (isString prompt));
      [apply stable_refl|]. repeat split; [done | done | by left].
  - unfold getHistory, bind, historyElems, alloc.
    destruct (heap st !! messageHistory (self st)) as [[m|elems]|];
      try apply stable_refl.
    apply stable_append.
Qed.

Lemma readMessages_stable h h' l :
  (forall x m, readMessage h x = Some m -> readMessage h' x = Some m) ->
  Forall (fun x => is_Some (readMessage h x)) l ->
  readMessages h' l = readMessages h l /\
  Forall (fun x => is_Some (readMessage h' x)) l.
Proof.
  intros Hkeep. induction 1 as [|x l [m Hm] _ [IH1 IH2]]; [by split|].
  rewrite !readMessages_cons, Hm, (Hkeep x m Hm), IH1.
  split; [reflexivity|]. constructor; [|exact IH2].
  rewrite (Hkeep x m Hm). by eexists.
Qed.

Lemma stable_keeps_array {W : Type} (st st' : Machine W) r ms :
  stable (self st) (heap st) (self st') (heap st') ->
  keeps_array r ms st -> keeps_array r ms st'.
Proof.
  intros (Hmsg & Harr & Href) (l & Hl & Hall & Hms & Hne).
  destruct (readMessages_stable _ _ l Hmsg Hall) as [Heq Hall'].
  exists l. split; [by apply Harr|]. split; [exact Hall'|].
  split; [by rewrite Heq|].
  destruct Href as [->|Hge]; [exact Hne|].
  apply lookup_lt_Some in Hl. lia.
Qed.

Lemma runOps_keeps_array {W : Type}
    (boundProvider : outcome (string -> ProviderConfig -> M W ProviderResponse))
    ops (st : Machine W) r ms :
  keeps_array r ms st -> keeps_array r ms (runOps boundProvider ops st).
Proof.
  revert st. induction ops as [|op ops IH]; intros st H; [exact H|].
  simpl. apply IH. eapply stable_keeps_array; [apply runOp_stable | exact H].
Qed.

Lemma keeps_array_messages {W : Type} (st : Machine W) r ms :
  keeps_array r ms st -> arrayMessages r st = ms.
Proof. intros (l & Hl & _ & Hms & _). unfold arrayMessages. by rewrite Hl. Qed.

(** X14.  The array [getHistory] returns is a snapshot: whatever
    operations ([query], [clearHistory], [setSystemPrompt], [getHistory])
    the agent then performs, with whatever provider, the array still holds
    the messages the history had at the time of the call. *)
Theorem getHistory_snapshot {W : Type}
    (boundProvider : outcome (string -> ProviderConfig -> M W ProviderResponse))
    (st : Machine W) ops :
  wellFormed st ->
  exists r st1,
    getHistory st = (Return r, st1) /\
    arrayMessages r (runOps boundProvider ops st1) = history st.
Proof.
  intros Hwf.
  destruct (getHistory_fresh st Hwf)
    as (elems & st1 & Hg & Hself & Hheap & Ha & (l1 & Hl1 & Hall1) & _ & Harr).
  exists (length (heap st)), st1. split; [exact Hg|].
  apply keeps_array_messages, runOps_keeps_array.
  assert (Hr : heap st1 !! length (heap st) = Some (OArray elems)).
  { rewrite Hheap. by apply list_lookup_middle. }
  assert (Ha1 : heap st1 !! messageHistory (self st1) = Some (OArray elems)).
  { rewrite Hself, Hheap. by apply lookup_app_l_Some. }
  rewrite Ha1 in Hl1. injection Hl1 as <-.
  exists elems. split; [exact Hr|]. split; [exact Hall1|]. split.
  - unfold arrayMessages in Harr. by rewrite Hr in Harr.
  - rewrite Hself. apply lookup_lt_Some in Ha. lia.
Qed.

Lemma getHistory_snapshot_witness :
  wellFormed Scene.guided /\
  exists r st1,
    getHistory Scene.guided = (Return r, st1) /\
    arrayMessages r
      (runOps (bound (Script.runtime (Script.completion "hello")) "OpenAILike")
              Scene.later st1)
    = [{| role := "user"; content := JStr "hi" |};
       {| role := "assistant"; content := JStr "hello" |}].
Proof.
  split; [exact guided_wellFormed|].
  apply (getHistory_snapshot
           (bound (Script.runtime (Script.completion "hello")) "OpenAILike")
           Scene.guided Scene.later).
  exact guided_wellFormed.
Defined.

(** X15.  Agents that share the store do not interfere: whatever
    operations one agent performs, the history of another agent, held in
    another array, stays as it was. *)
Theorem agents_do_not_interfere {W : Type}
    (boundProvider : outcome (string -> ProviderConfig -> M W ProviderResponse))
    (st : Machine W) (other : Agent) ops :
  wellFormed (withSelf other st) ->
  messageHistory other <> messageHistory (self st) ->
  history (withSelf other (runOps boundProvider ops st))
  = history (withSelf other st).
Proof.
  intros (l & Hl & Hall) Hne.
  change (arrayMessages (messageHistory other) (runOps boundProvider ops st)
          = history (withSelf other st)).
  apply keeps_array_messages, runOps_keeps_array.
  exists l. split; [exact Hl|]. split; [exact Hall|]. split; [|exact Hne].
  unfold history. simpl in Hl |- *. by rewrite Hl.
Qed.

Lemma agents_do_not_interfere_witness :
  wellFormed (withSelf Scene.second Scene.pair) /\
  messageHistory Scene.second <> messageHistory (self Scene.pair) /\
  history
    (runOps (bound (Script.runtime (Script.completion "hello")) "OpenAI")
            [OpQuery (JStr "hi") JUndefined; OpClearHistory;
             OpQuery (JStr "again") JUndefined] Scene.pair)
  = [{| role := "user"; content := JStr "again" |};
     {| role := "assistant"; content := JStr "hello" |}] /\
  history
    (withSelf Scene.second
       (runOps (bound (Script.runtime (Script.completion "hello")) "OpenAI")
               [OpQuery (JStr "hi") JUndefined; OpClearHistory;
                OpQuery (JStr "again") JUndefined] Scene.pair))
  = [].
Proof.
  assert (Hwf : wellFormed (withSelf Scene.second Scene.pair))
    by (exists []; split; [reflexivity | constructor]).
  split; [exact Hwf|]. split; [discriminate|]. split; [reflexivity|].
  rewrite (agents_do_not_interfere
             (bound (Script.runtime (Script.completion "hello")) "OpenAI")
             Scene.pair Scene.second
             [OpQuery (JStr "hi") JUndefined; OpClearHistory;
              OpQuery (JStr "again") JUndefined] Hwf);
    [reflexivity | discriminate].
Defined.

(** X22.  A query with a falsy [keepHistory] writes nothing: whatever
    the input and whatever the provider does, the agent and the object
    store are as before, and so is the history. *)
Theorem one_off_query_writes_nothing {W : Type}
    (boundProvider : outcome (string -> ProviderConfig -> M W ProviderResponse))
    (st : Machine W) input keepHistory :
  keeps keepHistory = false ->
  self (snd (query boundProvider input keepHistory st)) = self st /\
  heap (snd (query boundProvider input keepHistory st)) = heap st /\
  history (snd (query boundProvider input keepHistory st)) = history st.
Proof.
  intros Hk.
  assert (H : forall out st',
             query boundProvider input keepHistory st = (out, st') ->
             self st' = self st /\ heap st' = heap st).
  { intros out st'. unfold query.
    destruct (negb (truthy input) || negb (isString input));
      [by intros [= _ <-]|].
    unfold tryCatch, queryBody, bind at 1, gets at 1.
    unfold bind at 1, historyElems.
    destruct (heap st !! messageHistory (self st)) as [[m|elems]|];
      try (by intros [= _ <-]).
    unfold bind at 1, gets at 1. unfold bind at 1, gets at 1.
    unfold bind at 1, delegate.
    destruct boundProvider as [generate|e]; [|by intros [= _ <-]].
    destruct (generate _ _ (world st)) as [[answer|e] w];
      [|by intros [= _ <-]].
    rewrite Hk, andb_false_r. by intros [= _ <-]. }
  destruct (query boundProvider input keepHistory st) as [out st'] eqn:Hq.
  destruct (H out st' eq_refl) as [Hs Hh]. simpl.
  repeat split; [exact Hs | exact Hh |]. unfold history. by rewrite Hs, Hh.
Qed.

Lemma one_off_query_writes_nothing_witness :
  keeps (JBool false) = false /\
  history (snd (agentQuery (Script.runtime (Script.completion "hello"))
                           (JStr "What is your favorite season?")
                           (JBool false) Scene.guided))
  = history Scene.guided.
Proof.
  split; [reflexivity|].
  apply (one_off_query_writes_nothing
           (bound (Script.runtime (Script.completion "hello")) "OpenAILike")
           Scene.guided (JStr "What is your favorite season?") (JBool false)).
  reflexivity.
Defined.

(** ** The agent: prompt and reset *)



(** ** The registry *)

Lemma elem_of_listAgents (this : GASAgent) name :
  name ∈ listAgents this <-> is_Some (agents this !! name).
Proof.
  unfold listAgents. rewrite list_elem_of_fmap. split.
  - intros ([k a] & -> & Hin). apply elem_of_map_to_list in Hin. by eexists.
  - intros [a Ha]. exists (name, a). split; [reflexivity|].
    by apply elem_of_map_to_list.
Qed.

(** X18.  [createAgent] is all or nothing.  When it throws, the error is
    one of its three messages and neither the registry nor the store has
    changed; when it returns, it has allocated one empty history array,
    stored the agent under the given name and left every other name as it
    was. *)
Theorem createAgent_all_or_nothing agentName provider settings this h :
  match createAgent agentName provider settings (this, h) with
  | (Throw e, after) =>
    after = (this, h) /\
    (e = "Agent name must be a non-empty string." \/
     e = "Agent '" +:+ stringOf agentName +:+ "' already exists." \/
     e = "Provider '" +:+ provider +:+ "' not registered.")
  | (Return agent, (this', h')) =>
    h' = h ++ [OArray []] /\
    h' !! messageHistory agent = Some (OArray []) /\
    agents this' !! stringOf agentName = Some agent /\
    (forall other, other <> stringOf agentName ->
                   agents this' !! other = agents this !! other) /\
    systemPrompt agent = strOr (cfgSystemPrompt settings) "" /\
    config agent = settings /\ providerName agent = provider
  end.
Proof.
  unfold createAgent.
  destruct (negb (truthy agentName) || negb (isString agentName));
    [by split; [|left]|].
  destruct (agentFound this (stringOf agentName));
    [by split; [|right; left]|].
  destruct (negb (providerFound provider)); [by split; [|right; right]|].
  simpl. split; [reflexivity|]. split; [by apply list_lookup_middle|].
  split; [apply lookup_insert_eq|]. split; [|by repeat split].
  intros other Hne. by apply lookup_insert_ne.
Qed.

(** X19.  A name can be given once: after [createAgent] has returned an
    agent for a name, every further [createAgent] with that name, whatever
    the provider and the configuration, throws
    ["Agent '<name>' already exists."] and changes nothing. *)
Theorem createAgent_twice agentName provider settings this h agent this' h'
    provider2 settings2 h2 :
  createAgent agentName provider settings (this, h)
  = (Return agent, (this', h')) ->
  createAgent agentName provider2 settings2 (this', h2)
  = (Throw ("Agent '" +:+ stringOf agentName +:+ "' already exists."),
     (this', h2)).
Proof.
  intros H. apply createAgent_returned in H
    as (name & -> & Hn & _ & _ & _ & -> & _).
  apply (createAgent_duplicate name provider2 settings2 _ h2 agent Hn).
  apply lookup_insert_eq.
Qed.

Lemma createAgent_twice_witness :
  createAgent (JStr "helper") "OpenAI" Script.keyed (newGASAgent, [])
  = (Return Script.helper,
     ({| agents := <["helper" := Script.helper]> ∅ |}, [OArray []])) /\
  createAgent (JStr "helper") "Groq" Script.noConfig
              ({| agents := <["helper" := Script.helper]> ∅ |}, [OArray []])
  = (Throw "Agent 'helper' already exists.",
     ({| agents := <["helper" := Script.helper]> ∅ |}, [OArray []])).
Proof.
  split; [reflexivity|].
  apply (createAgent_twice (JStr "helper") "OpenAI" Script.keyed newGASAgent []
                           Script.helper _ [OArray []] "Groq" Script.noConfig
                           [OArray []]).
  reflexivity.
Defined.

(** X20.  [listAgents] lists every name once, and after a successful
    [createAgent] it lists the new name and the names it listed before. *)
Theorem listAgents_after_createAgent agentName provider settings this h agent
    this' h' :
  createAgent agentName provider settings (this, h)
  = (Return agent, (this', h')) ->
  NoDup (listAgents this') /\
  (stringOf agentName ∉ listAgents this) /\
  forall name,
    name ∈ listAgents this'
    <-> name = stringOf agentName \/ name ∈ listAgents this.
Proof.
  intros H. apply createAgent_returned in H
    as (n & -> & _ & Hfound & _ & _ & -> & _). simpl.
  split; [apply NoDup_fst_map_to_list|]. split.
  - rewrite elem_of_listAgents. intros Hin. unfold agentFound in Hfound.
    apply orb_false_iff in Hfound as [Hown _].
    by apply bool_decide_eq_false in Hown.
  - intros name. rewrite !elem_of_listAgents. simpl.
    destruct (decide (name = n)) as [->|Hne].
    + rewrite lookup_insert_eq. split; [by left | by eexists].
    + rewrite lookup_insert_ne by done. split; [by right|].
      by intros [?|?].
Qed.

Lemma listAgents_after_createAgent_witness :
  createAgent (JStr "helper") "OpenAI" Script.keyed (newGASAgent, [])
  = (Return Script.helper,
     ({| agents := <["helper" := Script.helper]> ∅ |}, [OArray []])) /\
  NoDup (listAgents {| agents := <["helper" := Script.helper]> ∅ |}) /\
  ("helper" ∉ listAgents newGASAgent) /\
  forall name,
    name ∈ listAgents {| agents := <["helper" := Script.helper]> ∅ |}
    <-> name = "helper" \/ name ∈ listAgents newGASAgent.
Proof.
  split; [reflexivity|].
  apply (listAgents_after_createAgent (JStr "helper") "OpenAI" Script.keyed
           newGASAgent [] Script.helper _ [OArray []]).
  reflexivity.
Defined.


(** ** [Example.gs] *)

Lemma request_changes_the_world {W : Type} (rt : Runtime W) kind input config
    (n : Net W) key :
  credential rt kind config (outside n) = Some key ->
  endpointGiven kind config = true ->
  snd (generateResponse rt kind input config n) <> n.
Proof.
  intros Hc He Heq.
  pose proof (generateResponse_sent rt kind input config n key Hc He) as Hs.
  rewrite Heq in Hs. apply (f_equal length) in Hs.
  rewrite length_app in Hs. simpl in Hs. lia.
Qed.

(** X23.  [verifyApiKeysExample] agrees with the providers: for each of
    the five named providers it reports ["Not Set"] exactly when that
    provider, given a configuration without [apiKey], answers with its
    missing-key error, and ["Set"] otherwise.  It does not report on the
    key of the custom endpoint. *)
Theorem verifyApiKeysExample_agrees {W : Type} (rt : Runtime W) kind input
    config (n : Net W) :
  kind <> OpenAILike -> apiKey config = None ->
  assoc (reportName OpenAILike) (verifyApiKeysExample rt (outside n)) = None /\
  (assoc (reportName kind) (verifyApiKeysExample rt (outside n)) = Some "Set" \/
   assoc (reportName kind) (verifyApiKeysExample rt (outside n))
   = Some "Not Set") /\
  (assoc (reportName kind) (verifyApiKeysExample rt (outside n))
   = Some "Not Set"
   <-> generateResponse rt kind input config n
       = (Return (failure 400 (keyRequired kind)), n)).
Proof.
  intros Hk Hcfg. split; [reflexivity|].
  assert (Hrep : assoc (reportName kind) (verifyApiKeysExample rt (outside n))
                 = Some (match credential rt kind config (outside n) with
                         | Some _ => "Set"
                         | None => "Not Set"
                         end)).
  { unfold credential. rewrite Hcfg. by destruct kind. }
  rewrite Hrep.
  destruct (credential rt kind config (outside n)) as [key|] eqn:Hc.
  - split; [by left|]. split; [discriminate|].
    intros Hg. exfalso.
    apply (request_changes_the_world rt kind input config n key Hc);
      [by destruct kind | by rewrite Hg].
  - split; [by right|]. split; [|done].
    intros _. by rewrite generateResponse_steps, Hc.
Qed.

Lemma verifyApiKeysExample_agrees_witness :
  Groq <> OpenAILike /\ apiKey Script.noConfig = None /\
  verifyApiKeysExample Scene.vault tt
  = [("OPENAI", "Not Set"); ("GOOGLEAI", "Not Set"); ("DEEPSEEK", "Not Set");
     ("OPENROUTER", "Not Set"); ("GROQ", "Set")] /\
  (assoc (reportName Groq) (verifyApiKeysExample Scene.vault tt)
   = Some "Not Set"
   <-> generateResponse Scene.vault Groq "hi" Script.noConfig Script.offline
       = (Return (failure 400 (keyRequired Groq)), Script.offline)).
Proof.
  split; [discriminate|]. split; [reflexivity|]. split; [reflexivity|].
  apply (verifyApiKeysExample_agrees Scene.vault Groq "hi" Script.noConfig
                                     Script.offline);
    [discriminate | reflexivity].
Defined.

(** ** The registry and the providers together *)

(** X21.  [createAgent] with a non-empty name that is neither taken nor
    inherited, and with one of the six provider names, returns an agent
    that is well formed, has an empty history and the system prompt of the
    configuration (none when it is absent or empty), and whose queries are
    bound to [generateResponse] of that provider. *)
Theorem createAgent_binds_provider {W : Type} (rt : Runtime W) name kind
    settings this h (w : Net W) :
  nonEmpty name = true -> agents this !! name = None ->
  inherited name = false ->
  exists agent this',
    createAgent (JStr name) (kindName kind) settings (this, h)
    = (Return agent, (this', h ++ [OArray []])) /\
    wellFormed (created agent (h ++ [OArray []]) w) /\
    history (created agent (h ++ [OArray []]) w) = [] /\
    systemPrompt agent = strOr (cfgSystemPrompt settings) "" /\
    bound rt (providerName agent) = Return (generateResponse rt kind) /\
    forall input keepHistory,
      agentQuery rt input keepHistory (created agent (h ++ [OArray []]) w)
      = query (Return (generateResponse rt kind)) input keepHistory
              (created agent (h ++ [OArray []]) w).
Proof.
  intros Hn Ha Hi.
  assert (Hf : agentFound this name = false)
    by (unfold agentFound; by rewrite Ha, Hi).
  assert (Hp : providerFound (kindName kind) = true) by (by destruct kind).
  assert (Hc : createAgent (JStr name) (kindName kind) settings (this, h)
               = (Return {| messageHistory := length h;
                            systemPrompt := strOr (cfgSystemPrompt settings) "";
                            config := settings;
                            providerName := kindName kind |},
                  ({| agents :=
                        <[name := {| messageHistory := length h;
                                     systemPrompt :=
                                       strOr (cfgSystemPrompt settings) "";
                                     config := settings;
                                     providerName := kindName kind |}]>
                          (agents this) |},
                   h ++ [OArray []]))).
  { unfold createAgent. simpl. by rewrite Hn, Hf, Hp. }
  do 2 eexists. split; [exact Hc|].
  destruct (created_wellFormed _ _ _ _ _ _ _ _ w Hc) as [Hwf Hh].
  split; [exact Hwf|]. split; [exact Hh|]. split; [reflexivity|].
  split; [apply bound_kind|].
  intros input keepHistory. unfold agentQuery. simpl. by rewrite bound_kind.
Qed.

Lemma createAgent_binds_provider_witness :
  nonEmpty "helper" = true /\ agents newGASAgent !! "helper" = None /\
  inherited "helper" = false /\
  exists agent this',
    createAgent (JStr "helper") (kindName Groq) Script.keyed (newGASAgent, [])
    = (Return agent, (this', [] ++ [OArray []])) /\
    history (created agent ([] ++ [OArray []]) Script.offline) = [] /\
    bound Scene.vault (providerName agent)
    = Return (generateResponse Scene.vault Groq).
Proof.
  split; [reflexivity|]. split; [reflexivity|]. split; [reflexivity|].
  destruct (createAgent_binds_provider Scene.vault "helper" Groq Script.keyed
              newGASAgent [] Script.offline eq_refl eq_refl eq_refl)
    as (agent & this' & Hc & _ & Hh & _ & Hb & _).
  exists agent, this'. by repeat split.
Defined.

(** ** The properties without premise, on examples *)

Lemma generateResponse_status_witness :
  exists r n',
    generateResponse (Script.runtime (Script.completion "hello")) OpenAI "hi"
                     Script.keyed Script.offline = (Return r, n') /\
    (status r = 200 \/ status r = 400 \/ status r = 500) /\
    (status r = 400 -> n' = Script.offline) /\
    (status r = 200 ->
     error r = None /\ exists v, response r = Some v /\ truthy v = true) /\
    (sent n' = sent Script.offline \/
     exists req, sent n' = sent Script.offline ++ [req]).
Proof.
  apply (generateResponse_status (Script.runtime (Script.completion "hello"))
                                 OpenAI "hi" Script.keyed Script.offline).
Defined.



Lemma createAgent_all_or_nothing_witness :
  match createAgent (JStr "helper") "InvalidProvider" Script.noConfig
                    (newGASAgent, []) with
  | (Throw e, after) =>
    after = (newGASAgent, []) /\
    (e = "Agent name must be a non-empty string." \/
     e = "Agent '" +:+ stringOf (JStr "helper") +:+ "' already exists." \/
     e = "Provider '" +:+ "InvalidProvider" +:+ "' not registered.")
  | (Return agent, (this', h')) =>
    h' = [] ++ [OArray []] /\
    h' !! messageHistory agent = Some (OArray []) /\
    agents this' !! stringOf (JStr "helper") = Some agent /\
    (forall other, other <> stringOf (JStr "helper") ->
                   agents this' !! other = agents newGASAgent !! other) /\
    systemPrompt agent = strOr (cfgSystemPrompt Script.noConfig) "" /\
    config agent = Script.noConfig /\ providerName agent = "InvalidProvider"
  end.
Proof.
  apply (createAgent_all_or_nothing (JStr "helper") "InvalidProvider"
                                    Script.noConfig newGASAgent []).
Defined.
